(** * The catalog query engine of product-catalog-cms

    A shallow embedding of the filter, search, sort, pagination and facet
    functions of [lib/api/filter-service.ts], [lib/api/pagination-service.ts]
    and of the orchestrator [getProducts] of the in-memory products service,
    followed by the properties the design document states about them.

    Conventions of the model:
    - strings are [string]s of 8-bit characters; [toLowerCase] maps the
      letters A-Z and [trim] strips the ASCII white space characters, the
      part of the JavaScript built-ins that is visible on such strings;
    - prices, time stamps and relevance scores are integers ([Z]);
    - the page and limit arguments are JavaScript numbers with their special
      values ([number]); after [Math.floor] they are integers or special
      values ([integral]); arithmetic on them is exact;
    - [Array.prototype.sort] is a stable sort driven by the sign of the
      comparator. *)

From Stdlib Require Import ZArith QArith Qround List String Ascii Bool Lia.
From Stdlib Require Import Permutation Sorted DecimalString.
Import ListNotations.

Local Open Scope string_scope.
Local Open Scope list_scope.
Local Open Scope Z_scope.

(** ** JavaScript string built-ins *)

Definition lowerChar (c : ascii) : ascii :=
  let n := nat_of_ascii c in
  if (Nat.leb 65 n && Nat.leb n 90)%bool then ascii_of_nat (n + 32) else c.

Fixpoint toLowerCase (s : string) : string :=
  match s with
  | EmptyString => EmptyString
  | String c s' => String (lowerChar c) (toLowerCase s')
  end.

(** Tab, line feed, vertical tab, form feed, carriage return and space. *)
Definition isWhiteSpace (c : ascii) : bool :=
  let n := nat_of_ascii c in
  (Nat.leb 9 n && Nat.leb n 13)%bool || Nat.eqb n 32.

Fixpoint trimStart (s : string) : string :=
  match s with
  | EmptyString => EmptyString
  | String c s' => if isWhiteSpace c then trimStart s' else s
  end.

Fixpoint trimEnd (s : string) : string :=
  match s with
  | EmptyString => EmptyString
  | String c s' =>
      let t := trimEnd s' in
      if (isWhiteSpace c && (t =? "")%string)%bool then EmptyString else String c t
  end.

Definition trim (s : string) : string := trimEnd (trimStart s).

(** [startsWith s t] is [s.startsWith(t)]. *)
Definition startsWith (s t : string) : bool := String.prefix t s.

(** [includes s t] is [s.includes(t)]: [t] occurs in [s] at some offset. *)
Fixpoint includes (s t : string) : bool :=
  startsWith s t ||
  match s with
  | EmptyString => false
  | String _ s' => includes s' t
  end.

(** [join sep parts] is [parts.join(sep)]. *)
Fixpoint join (sep : string) (parts : list string) : string :=
  match parts with
  | [] => ""
  | [p] => p
  | p :: rest => p ++ sep ++ join sep rest
  end.

(** [truthy s] is the truth value of a string in a condition. *)
Definition truthy (s : string) : bool := negb (s =? "")%string.

(** ** Arrays *)

(** Stable insertion sort: [x] moves past [y] only when the comparator is
    positive on [(x, y)], so elements that compare equal keep their order. *)
Fixpoint sortInsert {A : Type} (cmp : A -> A -> Z) (x : A) (l : list A) : list A :=
  match l with
  | [] => [x]
  | y :: ys => if 0 <? cmp x y then y :: sortInsert cmp x ys else x :: y :: ys
  end.

Fixpoint Array_sort {A : Type} (cmp : A -> A -> Z) (l : list A) : list A :=
  match l with
  | [] => []
  | x :: xs => sortInsert cmp x (Array_sort cmp xs)
  end.

(** [some f l] is [l.some(f)]; [Array_includes l x] is [l.includes(x)]. *)
Definition some {A : Type} (f : A -> bool) (l : list A) : bool := existsb f l.

Definition Array_includes (l : list string) (x : string) : bool :=
  existsb (String.eqb x) l.

(** ** Data model ([lib/types/product.ts]) *)

Record Inventory := mkInventory {
  inStock : bool;
  quantity : Z;
  lowStockThreshold : Z;
  reservedQuantity : Z
}.

Record Rating := mkRating {
  average : Q;
  count : Z
}.

(** The fields the engine reads, with the identity fields; images, the
    attribute map and the update time stamps are not read by any stage.
    [createdAt] is the value of [getTime()]. *)
Record Product := mkProduct {
  id : string;
  slug : string;
  sku : string;
  name : string;
  description : string;
  longDescription : option string;
  price : Z;
  originalPrice : option Z;
  currency : string;
  category : string;
  tags : list string;
  inventory : Inventory;
  featured : bool;
  isNew : bool;
  rating : option Rating;
  createdAt : Z
}.

(** ** Search stage ([searchProducts]) *)

(** The body of the [map] callback: the score is threaded through the
    conditionals in source order. *)
Definition scoreTag (searchTerm : string) (score : Z) (tag : string) : Z :=
  if (toLowerCase tag =? searchTerm)%string then score + 30
  else if includes (toLowerCase tag) searchTerm then score + 10
  else score.

Definition scoreProduct (searchTerm : string) (product : Product) : Z :=
  let score := 0 in
  let score :=
    if (toLowerCase (name product) =? searchTerm)%string then score + 100
    else if includes (toLowerCase (name product)) searchTerm then
      let score := score + 50 in
      if startsWith (toLowerCase (name product)) searchTerm then score + 10
      else score
    else score in
  let score :=
    if includes (toLowerCase (description product)) searchTerm then score + 20
    else score in
  let score :=
    match longDescription product with
    | Some ld => if includes (toLowerCase ld) searchTerm then score + 10 else score
    | None => score
    end in
  let score := fold_left (scoreTag searchTerm) (tags product) score in
  let score :=
    if includes (toLowerCase (category product)) searchTerm then score + 5
    else score in
  let score := if featured product then score + 5 else score in
  let score := if inStock (inventory product) then score + 3 else score in
  score.

Definition searchProducts (query : string) (products : list Product) : list Product :=
  let searchTerm := trim (toLowerCase query) in
  if negb (truthy searchTerm) then []
  else
    map fst
      (Array_sort (fun a b => snd b - snd a)
         (filter (fun ps => 0 <? snd ps)
            (map (fun product => (product, scoreProduct searchTerm product)) products))).

(** ** JavaScript numbers *)

(** A number as a caller can pass it: a finite value or a special one. *)
Inductive number := NaN | NegInfinity | Infinity | Num (q : Q).

(** A number that went through [Math.floor]. *)
Inductive integral := INaN | INegInf | IInf | Int (z : Z).

Definition Math_floor (n : number) : integral :=
  match n with
  | NaN => INaN
  | NegInfinity => INegInf
  | Infinity => IInf
  | Num q => Int (Qfloor q)
  end.

Definition Math_max (a b : integral) : integral :=
  match a, b with
  | INaN, _ | _, INaN => INaN
  | IInf, _ | _, IInf => IInf
  | INegInf, c | c, INegInf => c
  | Int x, Int y => Int (Z.max x y)
  end.

Definition Math_min (a b : integral) : integral :=
  match a, b with
  | INaN, _ | _, INaN => INaN
  | INegInf, _ | _, INegInf => INegInf
  | IInf, c | c, IInf => c
  | Int x, Int y => Int (Z.min x y)
  end.

Definition ineg (a : integral) : integral :=
  match a with
  | INaN => INaN
  | INegInf => IInf
  | IInf => INegInf
  | Int z => Int (- z)
  end.

Definition iadd (a b : integral) : integral :=
  match a, b with
  | INaN, _ | _, INaN => INaN
  | IInf, INegInf | INegInf, IInf => INaN
  | IInf, _ | _, IInf => IInf
  | INegInf, _ | _, INegInf => INegInf
  | Int x, Int y => Int (x + y)
  end.

Definition isub (a b : integral) : integral := iadd a (ineg b).

(** The sign of a number that is not NaN. *)
Definition isgn (a : integral) : Z :=
  match a with
  | INaN => 0
  | INegInf => -1
  | IInf => 1
  | Int z => Z.sgn z
  end.

Definition imul (a b : integral) : integral :=
  match a, b with
  | INaN, _ | _, INaN => INaN
  | Int x, Int y => Int (x * y)
  | _, _ =>
      let s := isgn a * isgn b in
      if s =? 0 then INaN else if 0 <? s then IInf else INegInf
  end.

(** [ilt a b] is [a < b]; a comparison with NaN is false. *)
Definition ilt (a b : integral) : bool :=
  match a, b with
  | INaN, _ | _, INaN => false
  | _, INegInf => false
  | INegInf, _ => true
  | IInf, _ => false
  | Int _, IInf => true
  | Int x, Int y => x <? y
  end.

(** [ceilDiv total d] is [Math.ceil(total / d)] for an integer [total]. *)
Definition ceilDiv (total : Z) (d : integral) : integral :=
  match d with
  | INaN => INaN
  | INegInf | IInf => Int 0
  | Int k =>
      if k =? 0 then
        if total =? 0 then INaN else if 0 <? total then IInf else INegInf
      else Int (- ((- total) / k))
  end.

(** The truth value of a number in a condition: [0] and [NaN] are falsy. *)
Definition numberTruthy (n : number) : bool :=
  match n with
  | NaN => false
  | Num q => negb (Qeq_bool q (inject_Z 0))
  | _ => true
  end.

(** [orElse x d] is [x || d] for an optional number [x]. *)
Definition orElse (x : option number) (d : number) : number :=
  match x with
  | Some n => if numberTruthy n then n else d
  | None => d
  end.

(** ** Filter stage ([filterProducts]) *)

Module Filters.
(** [FilterParams]: every field is optional. *)
Record FilterParams := mk {
  category : option string;
  minPrice : option Z;
  maxPrice : option Z;
  inStock : option bool;
  tags : option (list string);
  search : option string;
  sortBy : option string;
  page : option number;
  limit : option number
}.

(** The object literal [{}]. *)
Definition empty : FilterParams :=
  mk None None None None None None None None None.

Definition with_inStock (v : option bool) (f : FilterParams) : FilterParams :=
  mk (category f) (minPrice f) (maxPrice f) v (tags f) (search f)
     (sortBy f) (page f) (limit f).
End Filters.

(** The text the search criterion of the filter looks into. *)
Definition searchableText (product : Product) : string :=
  toLowerCase
    (join " " ([name product; description product] ++ tags product ++ [category product])).

(** The callback of [products.filter]: each [if] of the source is one
    conditional, in source order. *)
Definition filterCallback (filters : Filters.FilterParams) (product : Product) : bool :=
  if match Filters.category filters with
     | Some c => truthy c && negb (category product =? c)%string
     | None => false
     end
  then false
  else if match Filters.minPrice filters with
          | Some m => price product <? m
          | None => false
          end
  then false
  else if match Filters.maxPrice filters with
          | Some m => m <? price product
          | None => false
          end
  then false
  else if match Filters.inStock filters with
          | Some b => b && negb (inStock (inventory product))
          | None => false
          end
  then false
  else if match Filters.tags filters with
          | Some ts =>
              (0 <? Z.of_nat (List.length ts)) &&
              negb (some (fun filterTag => Array_includes (tags product) filterTag) ts)
          | None => false
          end
  then false
  else if match Filters.search filters with
          | Some s =>
              truthy s &&
              (let searchTerm := trim (toLowerCase s) in
               negb (includes (searchableText product) searchTerm))
          | None => false
          end
  then false
  else true.

Definition filterProducts (products : list Product) (filters : Filters.FilterParams)
  : list Product :=
  filter (filterCallback filters) products.

(** ** Facet summary ([getAvailableFilterOptions]) *)

(** A [Set] of strings, as the list of its elements in insertion order. *)
Definition Set_add (s : list string) (x : string) : list string :=
  if Array_includes s x then s else s ++ [x].

Definition Set_from (l : list string) : list string := fold_left Set_add l [].

(** The comparison of [sort()] without a comparator, on strings. *)
Definition defaultCompare (a b : string) : Z :=
  match String.compare a b with
  | Lt => -1
  | Eq => 0
  | Gt => 1
  end.

Module Facets.
Record PriceRange := mkRange { min : integral; max : integral }.

Record Available := mk {
  categories : list string;
  tags : list string;
  priceRange : PriceRange
}.
End Facets.

(** [Math.min(...prices)] and [Math.max(...prices)]. *)
Definition Math_min_all (prices : list Z) : integral :=
  fold_left (fun m p => Math_min m (Int p)) prices IInf.

Definition Math_max_all (prices : list Z) : integral :=
  fold_left (fun m p => Math_max m (Int p)) prices INegInf.

Definition getAvailableFilterOptions (products : list Product) : Facets.Available :=
  let categories := Array_sort defaultCompare (Set_from (map category products)) in
  let tags := Array_sort defaultCompare (Set_from (flat_map tags products)) in
  let prices := map price products in
  let priceRange := Facets.mkRange (Math_min_all prices) (Math_max_all prices) in
  Facets.mk categories tags priceRange.

(** ** Pagination stage ([paginateResults]) *)

Module Meta.
Record PaginationMeta := mk {
  page : integral;
  limit : integral;
  total : Z;
  totalPages : integral;
  hasNext : bool;
  hasPrev : bool
}.
End Meta.

Record AppliedFilters := mkApplied {
  applied : Filters.FilterParams;
  available : Facets.Available
}.

Record PaginatedResponse (T : Type) := mkResponse {
  data : list T;
  pagination : Meta.PaginationMeta;
  filters : option AppliedFilters
}.
Arguments mkResponse {T}.
Arguments data {T}.
Arguments pagination {T}.
Arguments filters {T}.

(** The position [Array.prototype.slice] derives from an argument: NaN
    counts as 0, a negative index counts from the end, and the result is
    clamped to the array. *)
Definition relativeIndex (len : Z) (i : integral) : Z :=
  match i with
  | INaN => 0
  | INegInf => 0
  | IInf => len
  | Int z => if z <? 0 then Z.max (len + z) 0 else Z.min z len
  end.

Definition slice {A : Type} (items : list A) (startIndex endIndex : integral) : list A :=
  let len := Z.of_nat (List.length items) in
  let k := relativeIndex len startIndex in
  let final := relativeIndex len endIndex in
  firstn (Z.to_nat (final - k)) (skipn (Z.to_nat k) items).

Definition paginateResults {T : Type} (items : list T) (page limit : number)
  : PaginatedResponse T :=
  let currentPage := Math_max (Int 1) (Math_floor page) in
  let itemsPerPage := Math_min (Math_max (Int 1) (Math_floor limit)) (Int 100) in
  let total := Z.of_nat (List.length items) in
  let totalPages := ceilDiv total itemsPerPage in
  let startIndex := imul (isub currentPage (Int 1)) itemsPerPage in
  let endIndex := iadd startIndex itemsPerPage in
  let data := slice items startIndex endIndex in
  let pagination :=
    Meta.mk currentPage itemsPerPage total totalPages
            (ilt currentPage totalPages) (ilt (Int 1) currentPage) in
  mkResponse data pagination None.

(** ** Sort stage ([sortProducts]) and orchestrator ([getProducts]) *)

Definition ratingOrZero (p : Product) : Q :=
  match rating p with
  | Some r => average r
  | None => inject_Z 0
  end.

(** The sign of a difference of two averages. *)
Definition Qsign (q : Q) : Z := Z.sgn (Qnum q).

Section Catalog.

(** [String.prototype.localeCompare] depends on the locale of the host. *)
Variable localeCompare : string -> string -> Z.

(** The collection exported by [lib/data/products]. *)
Variable products : list Product.

Definition sortProducts (products : list Product) (sortBy : option string)
  : list Product :=
  let sorted := products in
  match sortBy with
  | None => sorted
  | Some key =>
      if negb (truthy key) then sorted
      else if (key =? "price-asc")%string then
        Array_sort (fun a b => price a - price b) sorted
      else if (key =? "price-desc")%string then
        Array_sort (fun a b => price b - price a) sorted
      else if (key =? "name")%string then
        Array_sort (fun a b => localeCompare (name a) (name b)) sorted
      else if (key =? "newest")%string then
        Array_sort (fun a b => createdAt b - createdAt a) sorted
      else if (key =? "rating")%string then
        Array_sort (fun a b => Qsign (ratingOrZero b - ratingOrZero a)) sorted
      else sorted
  end.

Definition getProducts (filters : Filters.FilterParams) : PaginatedResponse Product :=
  let results := products in
  let results := filterProducts results filters in
  let results := sortProducts results (Filters.sortBy filters) in
  let page := orElse (Filters.page filters) (Num (inject_Z 1)) in
  let limit := orElse (Filters.limit filters) (Num (inject_Z 12)) in
  let paginatedResponse := paginateResults results page limit in
  paginatedResponse.

(** The pipeline as the design document words it: filter, then search
    when the trimmed query is not empty, then sort, then the facets of the
    filtered set, then paginate; the envelope carries page and facets. *)
Definition spec_getProducts (filters : Filters.FilterParams)
  : PaginatedResponse Product :=
  let filtered := filterProducts products filters in
  let searched :=
    match Filters.search filters with
    | Some query =>
        if truthy (trim query) then searchProducts query filtered else filtered
    | None => filtered
    end in
  let sorted := sortProducts searched (Filters.sortBy filters) in
  let facets := getAvailableFilterOptions filtered in
  let page := orElse (Filters.page filters) (Num (inject_Z 1)) in
  let limit := orElse (Filters.limit filters) (Num (inject_Z 12)) in
  let paged := paginateResults sorted page limit in
  mkResponse (data paged) (pagination paged) (Some (mkApplied filters facets)).

End Catalog.

(** ** The scoring table of the design document *)

Definition countIf {A : Type} (f : A -> bool) (l : list A) : Z :=
  Z.of_nat (List.length (filter f l)).

(** One summand per row of the table; [featuredWeight] is the weight of the
    row for featured products. *)
Definition tableScore (featuredWeight : Z) (query : string) (p : Product) : Z :=
  let lname := toLowerCase (name p) in
  let exact := (lname =? query)%string in
  (if exact then 100 else 0)
  + (if negb exact && includes lname query
     then 50 + (if startsWith lname query then 10 else 0) else 0)
  + (if includes (toLowerCase (description p)) query then 20 else 0)
  + (match longDescription p with
     | Some ld => if includes (toLowerCase ld) query then 10 else 0
     | None => 0
     end)
  + 30 * countIf (fun t => (toLowerCase t =? query)%string) (tags p)
  + 10 * countIf (fun t => negb (toLowerCase t =? query)%string
                           && includes (toLowerCase t) query) (tags p)
  + (if includes (toLowerCase (category p)) query then 5 else 0)
  + (if featured p then featuredWeight else 0)
  + (if inStock (inventory p) then 3 else 0).

(** The table as the design document prints it: featured counts 3. *)
Definition spec_score : string -> Product -> Z := tableScore 3.

(** ** Scenario data *)

(** A product given by the fields a scenario mentions; the other text
    fields are empty and the optional ones absent. *)
Definition scenarioProduct (nm descr : string) (pr : Z) (tgs : list string)
  (cat : string) (isFeatured isInStock : bool) : Product :=
  mkProduct "" "" "" nm descr None pr None "USD" cat tgs
            (mkInventory isInStock 0 0 0) isFeatured false None 0.

Definition headphones : Product :=
  scenarioProduct "Wireless Headphones" "" 2999 ["wireless"; "audio"] "" true true.

Definition mouse : Product :=
  scenarioProduct "Wired Mouse" "" 999 ["wired"] "" false true.

Definition deskLamp : Product :=
  scenarioProduct "Desk Lamp" "" 1500 [] "lighting" false false.

Definition lamp : Product :=
  scenarioProduct "Lamp" "" 900 [] "lighting" false false.

Definition trailShoe : Product :=
  scenarioProduct "trail" "running" 5000 ["shoe"; "red"] "footwear" false false.

Definition searchOnly (s : string) : Filters.FilterParams :=
  Filters.mk None None None None None (Some s) None None None.

(** A stand-in for the host's [localeCompare] where a concrete catalog is
    evaluated: the ordinal comparison. *)
Definition ordinalCompare : string -> string -> Z := defaultCompare.

(** ** Walking all pages *)

(** The page numbers [1 .. totalPages]. *)
Definition pageNumbers (totalPages : integral) : list Z :=
  match totalPages with
  | Int z => map Z.of_nat (seq 1 (Z.to_nat z))
  | _ => []
  end.

(** The data of every page, first page first, for a fixed limit. *)
Definition allPages {T : Type} (items : list T) (limit : number) : list T :=
  let totalPages :=
    Meta.totalPages (pagination (paginateResults items (Num (inject_Z 1)) limit)) in
  List.concat
    (map (fun p => data (paginateResults items (Num (inject_Z p)) limit))
         (pageNumbers totalPages)).

(** ** Pagination helpers ([getOffset], [getPageNumbers]) *)

Definition getOffset (page limit : number) : integral :=
  let validPage := Math_max (Int 1) (Math_floor page) in
  let validLimit := Math_max (Int 1) (Math_floor limit) in
  imul (isub validPage (Int 1)) validLimit.

(** The integers from [a] to [b], both included, in rising order. *)
Definition range (a b : Z) : list Z :=
  map (fun i => a + Z.of_nat i) (seq 0 (Z.to_nat (b - a + 1))).

(** [Array_from len f] is [Array.from({ length: len }, (_, i) => f(i))]. *)
Definition Array_from {A : Type} (len : Z) (f : Z -> A) : list A :=
  map (fun i => f (Z.of_nat i)) (seq 0 (Z.to_nat len)).

(** The loop [for (let i = ...; i <= endPage; i++) { pages.push(i); }]:
    each round tests the condition, pushes [i] and steps [i]; [fuel] bounds
    the number of rounds. *)
Fixpoint forPush (fuel : nat) (i endPage : Z) (pages : list Z) : list Z :=
  match fuel with
  | O => pages
  | S fuel' =>
      if i <=? endPage then forPush fuel' (i + 1) endPage (pages ++ [i])
      else pages
  end.

(** The loop from [startPage], with as many rounds as it can take. *)
Definition pushPages (startPage endPage : Z) (pages : list Z) : list Z :=
  forPush (Z.to_nat (endPage - startPage + 1)) startPage endPage pages.

(** [getPageNumbers] of the pagination service, on integer arguments. *)
Definition getPageNumbers (currentPage totalPages windowSize : Z) : list Z :=
  if totalPages <=? windowSize then Array_from totalPages (fun i => i + 1)
  else
    let halfWindow := windowSize / 2 in
    let startPage := Z.max 1 (currentPage - halfWindow) in
    let endPage := Z.min totalPages (currentPage + halfWindow) in
    let endPage :=
      if currentPage <=? halfWindow then Z.min windowSize totalPages
      else endPage in
    let startPage :=
      if totalPages - halfWindow <=? currentPage
      then Z.max 1 (totalPages - windowSize + 1)
      else startPage in
    let pages := [] in
    pushPages startPage endPage pages.

(** The local [getPageNumbers] of the [Pagination] component, which reads
    [page] and [totalPages] from the metadata and fills [pages] with a loop
    in both branches. *)
Definition Pagination_getPageNumbers (page totalPages : Z) : list Z :=
  let windowSize := 5 in
  let pages := [] in
  if totalPages <=? windowSize then pushPages 1 totalPages pages
  else
    let halfWindow := windowSize / 2 in
    let startPage := Z.max 1 (page - halfWindow) in
    let endPage := Z.min totalPages (page + halfWindow) in
    let endPage :=
      if page <=? halfWindow then Z.min windowSize totalPages else endPage in
    let startPage :=
      if totalPages - halfWindow <=? page
      then Z.max 1 (totalPages - windowSize + 1)
      else startPage in
    pushPages startPage endPage pages.

(** ** The products service *)

(** The integer a [slice] argument stands for: the fraction is dropped. *)
Definition toIntegerOrInfinity (n : number) : integral :=
  match n with
  | NaN => INaN
  | NegInfinity => INegInf
  | Infinity => IInf
  | Num q => Int (if Qle_bool (inject_Z 0) q then Qfloor q else Qceiling q)
  end.

(** [firstItems items limit] is [items.slice(0, limit)]. *)
Definition firstItems {A : Type} (items : list A) (limit : number) : list A :=
  slice items (Int 0) (toIntegerOrInfinity limit).

Inductive StockStatus := in_stock | low_stock | out_of_stock.

Inductive Urgency := urgency_none | urgency_medium | urgency_high.

Record InventoryStatus := mkStatus {
  status : StockStatus;
  message : string;
  canOrder : bool;
  urgency : option Urgency
}.

(** The decimal text of an integer, as a template literal prints it. *)
Definition Z_to_string (z : Z) : string :=
  NilEmpty.string_of_int (Z.to_int z).

Definition getInventoryStatus (product : Product) : InventoryStatus :=
  let quantity := quantity (inventory product) in
  let lowStockThreshold := lowStockThreshold (inventory product) in
  let inStock := inStock (inventory product) in
  if negb inStock || (quantity =? 0) then
    mkStatus out_of_stock "Out of Stock" false (Some urgency_none)
  else if quantity <=? lowStockThreshold then
    mkStatus low_stock ("Only " ++ Z_to_string quantity ++ " left in stock")
             true (Some urgency_high)
  else
    mkStatus in_stock "In Stock" true (Some urgency_none).

(** [Math.round] of the quotient of two integers, exactly: halves go up. *)
Definition roundDiv (a b : Z) : Z := (2 * a + b) / (2 * b).

Section Discount.

(** [percentOff original price] stands for
    [Math.round(((original - price) / original) * 100)], which the code
    computes in double precision; the model does not evaluate it. *)
Variable percentOff : Z -> Z -> Z.

Definition getDiscountPercentage (product : Product) : option Z :=
  match originalPrice product with
  | None => None
  | Some original =>
      if (original =? 0) || (original <=? price product) then None
      else
        let discount := percentOff original (price product) in
        Some discount
  end.

End Discount.

Definition withCategory (c : string) (f : Filters.FilterParams) : Filters.FilterParams :=
  Filters.mk (Some c) (Filters.minPrice f) (Filters.maxPrice f)
             (Filters.inStock f) (Filters.tags f) (Filters.search f)
             (Filters.sortBy f) (Filters.page f) (Filters.limit f).

(** The result of [performSearch]; its [count] field is [resultCount] here,
    [count] being the field of [Rating]. *)
Record SearchResult := mkSearchResult {
  results : list Product;
  query : string;
  resultCount : Z
}.

(** The result of [getProductStats]; the fields [inStock], [outOfStock],
    [lowStock] and [featured] carry the prefix [stats]. The average price is
    rounded from the exact quotient. *)
Record ProductStats := mkStats {
  totalProducts : Z;
  statsInStock : Z;
  statsOutOfStock : Z;
  statsLowStock : Z;
  statsFeatured : Z;
  averagePrice : integral;
  inventoryValue : Z
}.

Section Service.

Variable localeCompare : string -> string -> Z.

(** The collection exported by [lib/data/products]. *)
Variable products : list Product.

Definition performSearch (query : string) (limit : number) : SearchResult :=
  let results := firstItems (searchProducts query products) limit in
  mkSearchResult results query (Z.of_nat (List.length results)).

Definition getFeaturedProducts (limit : number) : list Product :=
  firstItems (filter (fun p => featured p) products) limit.

Definition getNewArrivals (limit : number) : list Product :=
  firstItems
    (Array_sort (fun a b => createdAt b - createdAt a)
       (filter (fun p => isNew p) products))
    limit.

Definition getProductsByCategory (category : string) (filters : Filters.FilterParams)
  : PaginatedResponse Product :=
  let categoryFilters := withCategory category filters in
  getProducts localeCompare products categoryFilters.

Definition getProductsOnSale (limit : number) : list Product :=
  firstItems
    (filter (fun p => match originalPrice p with
                      | Some original => negb (original =? 0) && (price p <? original)
                      | None => false
                      end) products)
    limit.

Definition getLowStockProducts : list Product :=
  filter (fun p => inStock (inventory p)
                   && (quantity (inventory p) <=? lowStockThreshold (inventory p)))
         products.

Definition getOutOfStockProducts : list Product :=
  filter (fun p => negb (inStock (inventory p)) || (quantity (inventory p) =? 0))
         products.

Definition getProductStats : ProductStats :=
  let total := Z.of_nat (List.length products) in
  let inStockCount :=
    Z.of_nat (List.length (filter (fun p => inStock (inventory p)) products)) in
  let outOfStock :=
    Z.of_nat (List.length (filter (fun p => negb (inStock (inventory p))) products)) in
  let lowStock := Z.of_nat (List.length getLowStockProducts) in
  let featuredCount := Z.of_nat (List.length (filter (fun p => featured p) products)) in
  let totalPrice := fold_left (fun sum p => sum + price p) products 0 in
  let averagePrice :=
    if total =? 0 then INaN else Int (roundDiv totalPrice total) in
  let inventoryValue :=
    fold_left (fun sum p => sum + price p * quantity (inventory p)) products 0 in
  mkStats total inStockCount outOfStock lowStock featuredCount averagePrice
          inventoryValue.

Definition getRelatedProducts (product : Product) (limit : number) : list Product :=
  firstItems
    (filter (fun p =>
               if (id p =? id product)%string then false
               else if (category p =? category product)%string then true
               else
                 let sharedTags :=
                   filter (fun tag => Array_includes (tags product) tag) (tags p) in
                 0 <? Z.of_nat (List.length sharedTags))
            products)
    limit.

End Service.

(** ** Order of a sorted array *)

(** The relation the sort establishes between neighbours: the comparator
    does not ask for a swap. *)
Definition inOrder {A : Type} (cmp : A -> A -> Z) (x y : A) : Prop := cmp x y <= 0.

(** * Properties *)

(** ** Strings and scores *)

Lemma truthy_false_iff (s : string) : truthy s = false <-> s = "".
Proof.
  unfold truthy. rewrite negb_false_iff. apply String.eqb_eq.
Qed.

Lemma truthy_true_iff (s : string) : truthy s = true <-> s <> "".
Proof.
  unfold truthy. rewrite negb_true_iff. apply String.eqb_neq.
Qed.

Lemma countIf_cons {A : Type} (f : A -> bool) (x : A) (l : list A) :
  countIf f (x :: l) = (if f x then 1 else 0) + countIf f l.
Proof.
  unfold countIf. simpl. destruct (f x); simpl List.length; lia.
Qed.

Lemma countIf_nonneg {A : Type} (f : A -> bool) (l : list A) : 0 <= countIf f l.
Proof. unfold countIf. lia. Qed.

(** The loop over the tags adds 30 per exact tag and 10 per partial one. *)
Lemma fold_scoreTag (q : string) (ts : list string) (s : Z) :
  fold_left (scoreTag q) ts s
  = s + 30 * countIf (fun t => (toLowerCase t =? q)%string) ts
      + 10 * countIf (fun t => negb (toLowerCase t =? q)%string
                              && includes (toLowerCase t) q) ts.
Proof.
  revert s. induction ts as [|t ts IH]; intro s.
  - unfold countIf. simpl. lia.
  - simpl fold_left. rewrite IH, !countIf_cons. unfold scoreTag. cbv beta.
    destruct (toLowerCase t =? q)%string; cbn [negb andb].
    + lia.
    + destruct (includes (toLowerCase t) q); lia.
Qed.

(** The threaded score is the sum of the table rows, featured counting 5. *)
Lemma scoreProduct_table (q : string) (p : Product) :
  scoreProduct q p = tableScore 5 q p.
Proof.
  unfold scoreProduct, tableScore. rewrite fold_scoreTag.
  destruct (toLowerCase (name p) =? q)%string; cbn [negb andb];
    [| destruct (includes (toLowerCase (name p)) q);
       [destruct (startsWith (toLowerCase (name p)) q)|] ];
    destruct (includes (toLowerCase (description p)) q);
    destruct (longDescription p) as [ld|];
    try destruct (includes (toLowerCase ld) q);
    destruct (includes (toLowerCase (category p)) q);
    destruct (featured p); destruct (inStock (inventory p)); lia.
Qed.

Lemma tableScore_lower_bound (w : Z) (q : string) (p : Product) :
  0 <= w ->
  (if featured p then w else 0) + (if inStock (inventory p) then 3 else 0)
  <= tableScore w q p.
Proof.
  intro Hw. unfold tableScore.
  pose proof (countIf_nonneg (fun t => (toLowerCase t =? q)%string) (tags p)).
  pose proof (countIf_nonneg
                (fun t => negb (toLowerCase t =? q)%string
                          && includes (toLowerCase t) q) (tags p)).
  destruct (toLowerCase (name p) =? q)%string; cbn [negb andb];
    [| destruct (includes (toLowerCase (name p)) q);
       [destruct (startsWith (toLowerCase (name p)) q)|] ];
    destruct (includes (toLowerCase (description p)) q);
    destruct (longDescription p) as [ld|];
    try destruct (includes (toLowerCase ld) q);
    destruct (includes (toLowerCase (category p)) q);
    destruct (featured p); destruct (inStock (inventory p)); lia.
Qed.

(** ** Sorting rearranges, nothing more *)

Lemma sortInsert_perm {A : Type} (cmp : A -> A -> Z) (x : A) (l : list A) :
  Permutation (sortInsert cmp x l) (x :: l).
Proof.
  induction l as [|y ys IH]; simpl.
  - apply Permutation_refl.
  - destruct (0 <? cmp x y).
    + apply perm_trans with (y :: x :: ys).
      * apply perm_skip, IH.
      * apply perm_swap.
    + apply Permutation_refl.
Qed.

Lemma Array_sort_perm {A : Type} (cmp : A -> A -> Z) (l : list A) :
  Permutation (Array_sort cmp l) l.
Proof.
  induction l as [|x xs IH]; simpl.
  - apply perm_nil.
  - eapply perm_trans; [apply sortInsert_perm | apply perm_skip, IH].
Qed.

Lemma Array_sort_In {A : Type} (cmp : A -> A -> Z) (l : list A) (x : A) :
  In x (Array_sort cmp l) <-> In x l.
Proof.
  split; apply Permutation_in.
  - apply Array_sort_perm.
  - apply Permutation_sym, Array_sort_perm.
Qed.

Lemma Array_sort_length {A : Type} (cmp : A -> A -> Z) (l : list A) :
  List.length (Array_sort cmp l) = List.length l.
Proof. apply Permutation_length, Array_sort_perm. Qed.

(** ** The search stage *)

(** With a query that is not blank, the result holds exactly the products
    of the input whose score is positive. *)
Lemma searchProducts_In (query : string) (products : list Product) (p : Product) :
  trim (toLowerCase query) <> "" ->
  In p (searchProducts query products)
  <-> In p products /\ 0 < scoreProduct (trim (toLowerCase query)) p.
Proof.
  intro Hq. unfold searchProducts.
  apply truthy_true_iff in Hq. rewrite Hq. cbn [negb].
  set (q := trim (toLowerCase query)).
  rewrite in_map_iff. split.
  - intros [[p' s] [Hfst Hin]]. simpl in Hfst. subst p'.
    apply Array_sort_In in Hin. apply filter_In in Hin.
    destruct Hin as [Hin Hpos]. apply in_map_iff in Hin.
    destruct Hin as [p0 [Heq Hin]]. inversion Heq; subst.
    simpl in Hpos. apply Z.ltb_lt in Hpos. auto.
  - intros [Hin Hpos]. exists (p, scoreProduct q p). split; [reflexivity|].
    apply Array_sort_In. apply filter_In. split.
    + apply in_map_iff. exists p. auto.
    + simpl. apply Z.ltb_lt. exact Hpos.
Qed.

(** C2, as the code has it: on the two products of the scenario the query
    "wireless" scores the headphones 98 (50 for the name containing it, 10 for
    the name starting with it, 30 for the exact tag, 5 for featured, 3 for in
    stock), and the headphones are the first product of the result. *)
Theorem search_scenario_wireless :
  scoreProduct "wireless" headphones = 50 + 10 + 30 + 5 + 3
  /\ hd_error (searchProducts "wireless" [headphones; mouse]) = Some headphones.
Proof. split; vm_compute; reflexivity. Qed.

(** C2 fails as stated: the result is not the headphones alone, their score
    is not 106 and the score of the mouse is not 0. *)
Lemma search_scenario_wireless_not_106 :
  searchProducts "wireless" [headphones; mouse] <> [headphones]
  /\ scoreProduct "wireless" headphones <> 106
  /\ scoreProduct "wireless" mouse <> 0.
Proof. repeat split; vm_compute; discriminate. Qed.

(** C3, as the code has it: for a query that is not blank the score of a
    product is the sum of the rows of the table with 5, not 3, in the row for
    featured products (in stock counts 3), and the result holds exactly the
    products of the input with a positive score, so a product with score 0 is
    discarded. *)
Theorem score_is_table_sum (query : string) (products : list Product) (p : Product) :
  trim (toLowerCase query) <> "" ->
  let q := trim (toLowerCase query) in
  scoreProduct q p = tableScore 5 q p
  /\ 0 <= scoreProduct q p
  /\ (In p (searchProducts query products) <-> In p products /\ 0 < scoreProduct q p)
  /\ (scoreProduct q p = 0 -> ~ In p (searchProducts query products)).
Proof.
  intros Hq q. split; [apply scoreProduct_table|]. split.
  - rewrite scoreProduct_table.
    pose proof (tableScore_lower_bound 5 q p ltac:(lia)).
    destruct (featured p), (inStock (inventory p)); lia.
  - split.
    + apply searchProducts_In, Hq.
    + intros H0 Hin. apply (searchProducts_In _ _ _ Hq) in Hin.
      fold q in Hin. lia.
Qed.

Lemma score_is_table_sum_witness :
  scoreProduct "wireless" headphones = tableScore 5 "wireless" headphones
  /\ In headphones (searchProducts " Wireless " [headphones; mouse]).
Proof.
  assert (Hq : trim (toLowerCase " Wireless ") <> "") by (vm_compute; discriminate).
  destruct (score_is_table_sum " Wireless " [headphones; mouse] headphones Hq)
    as [Hs [_ [Hin _]]].
  split.
  - exact Hs.
  - apply Hin. split; [left; reflexivity | vm_compute; reflexivity].
Defined.

(** C3 fails as stated: with 3 for featured the table gives the featured
    headphones 96, the code gives them 98. *)
Lemma score_differs_from_spec_table :
  spec_score "wireless" headphones = 96
  /\ scoreProduct "wireless" headphones = 98
  /\ scoreProduct "wireless" headphones <> spec_score "wireless" headphones.
Proof. repeat split; vm_compute; discriminate. Qed.

(** C4, as the code has it: a query that is empty after lower-casing and
    trimming makes the search return the empty list, whatever the products. *)
Theorem search_blank_query_is_empty (query : string) (products : list Product) :
  trim (toLowerCase query) = "" ->
  searchProducts query products = [].
Proof.
  intro Hq. unfold searchProducts.
  apply truthy_false_iff in Hq. rewrite Hq. reflexivity.
Qed.

Lemma search_blank_query_is_empty_witness :
  searchProducts "   " [headphones; mouse] = [].
Proof.
  apply (search_blank_query_is_empty "   " [headphones; mouse]).
  vm_compute. reflexivity.
Defined.

(** C4 fails as stated: the empty query does not give the products back. *)
Lemma search_empty_query_not_identity :
  searchProducts "" [headphones; mouse] <> [headphones; mouse].
Proof. vm_compute. discriminate. Qed.

(** C8: with a query that is not blank, every product of the input that is
    in stock, and every one that is featured, is in the result, whether or
    not the query occurs in any of its fields. *)
Theorem search_keeps_in_stock_and_featured
  (query : string) (products : list Product) (p : Product) :
  trim (toLowerCase query) <> "" ->
  In p products ->
  inStock (inventory p) = true \/ featured p = true ->
  In p (searchProducts query products).
Proof.
  intros Hq Hin Hflag. apply searchProducts_In; [exact Hq|].
  split; [exact Hin|]. rewrite scoreProduct_table.
  pose proof (tableScore_lower_bound 5 (trim (toLowerCase query)) p ltac:(lia)) as Hlb.
  destruct Hflag as [H | H]; rewrite H in Hlb.
  - destruct (featured p); lia.
  - destruct (inStock (inventory p)); lia.
Qed.

Lemma search_keeps_in_stock_and_featured_witness :
  includes (searchableText mouse) "wireless" = false
  /\ In mouse (searchProducts "wireless" [headphones; mouse]).
Proof.
  split; [vm_compute; reflexivity|].
  apply (search_keeps_in_stock_and_featured "wireless" [headphones; mouse] mouse).
  - vm_compute. discriminate.
  - right. left. reflexivity.
  - left. reflexivity.
Defined.

(** ** The filter stage *)

Lemma filterCallback_inStock_false (f : Filters.FilterParams) (p : Product) :
  filterCallback (Filters.with_inStock (Some false) f) p
  = filterCallback (Filters.with_inStock None f) p.
Proof. reflexivity. Qed.

(** C9: a filter whose in-stock flag is false returns what the same filter
    returns with the flag absent; alone, it returns every product, the ones
    in stock included. *)
Theorem filter_inStock_false_is_absent :
  (forall (products : list Product) (f : Filters.FilterParams),
      filterProducts products (Filters.with_inStock (Some false) f)
      = filterProducts products (Filters.with_inStock None f))
  /\ (forall products : list Product,
         filterProducts products (Filters.with_inStock (Some false) Filters.empty)
         = products).
Proof.
  split.
  - intros products f. unfold filterProducts. apply filter_ext.
    intro p. apply filterCallback_inStock_false.
  - intro products. unfold filterProducts.
    induction products as [|p ps IH]; simpl; [reflexivity|].
    f_equal. exact IH.
Qed.

(** C10: the search criterion of the filter looks for the trimmed,
    lower-cased search string in the lower-cased text made of name,
    description, tags and category joined by spaces; the search
    "running shoe" accepts a product although neither its name, its
    description, any of its tags nor its category contains it. *)
Theorem filter_search_matches_across_fields :
  (forall (s : string) (p : Product),
      s <> "" ->
      filterCallback (searchOnly s) p
      = includes
          (toLowerCase
             (join " " ([name p; description p] ++ tags p ++ [category p])))
          (trim (toLowerCase s)))
  /\ exists (p : Product) (s : string),
      s <> ""
      /\ filterProducts [p] (searchOnly s) = [p]
      /\ includes (toLowerCase (name p)) (trim (toLowerCase s)) = false
      /\ includes (toLowerCase (description p)) (trim (toLowerCase s)) = false
      /\ (forall t, In t (tags p) ->
                    includes (toLowerCase t) (trim (toLowerCase s)) = false)
      /\ includes (toLowerCase (category p)) (trim (toLowerCase s)) = false.
Proof.
  split.
  - intros s p Hs. unfold filterCallback, searchOnly, searchableText. simpl.
    apply truthy_true_iff in Hs. rewrite Hs. simpl.
    destruct (includes _ _); reflexivity.
  - exists trailShoe, "running shoe".
    split; [discriminate|].
    split; [vm_compute; reflexivity|].
    split; [vm_compute; reflexivity|].
    split; [vm_compute; reflexivity|].
    split; [|vm_compute; reflexivity].
    intros t [Ht | [Ht | []]]; subst t; vm_compute; reflexivity.
Qed.

(** ** The facet summary *)

(** C5, as the code has it: on the empty list the categories and the tags
    are empty and the price range is [{min: Infinity, max: -Infinity}], the
    values of [Math.min()] and [Math.max()] without arguments. *)
Theorem facets_of_empty_list :
  getAvailableFilterOptions []
  = Facets.mk [] [] (Facets.mkRange IInf INegInf).
Proof. reflexivity. Qed.

(** C5 fails as stated: the price range of the empty list is not [{0, 0}]. *)
Lemma facets_of_empty_list_not_zero :
  getAvailableFilterOptions [] <> Facets.mk [] [] (Facets.mkRange (Int 0) (Int 0)).
Proof. vm_compute. discriminate. Qed.

(** ** The pagination stage *)

(** The normalised limit is an integer between 1 and 100 unless the limit
    is NaN. *)
Lemma itemsPerPage_range (limit : number) :
  limit <> NaN ->
  exists k, Math_min (Math_max (Int 1) (Math_floor limit)) (Int 100) = Int k
            /\ 1 <= k <= 100.
Proof.
  intro H. destruct limit as [| | |q]; simpl.
  - contradiction.
  - exists 1. split; [reflexivity | lia].
  - exists 100. split; [reflexivity | lia].
  - eexists. split; [reflexivity | lia].
Qed.

Lemma itemsPerPage_of_valid (q : Q) :
  (inject_Z 1 <= q)%Q -> (q <= inject_Z 100)%Q ->
  Math_min (Math_max (Int 1) (Math_floor (Num q))) (Int 100) = Int (Qfloor q)
  /\ 1 <= Qfloor q <= 100.
Proof.
  intros Hlo Hhi.
  assert (H1 : 1 <= Qfloor q).
  { rewrite <- (Qfloor_Z 1). apply Qfloor_resp_le, Hlo. }
  assert (H2 : Qfloor q <= 100).
  { rewrite <- (Qfloor_Z 100). apply Qfloor_resp_le, Hhi. }
  split; [|lia]. simpl. f_equal. lia.
Qed.

Lemma floor_ge_2 (q : Q) : 2 <= Qfloor q <-> (inject_Z 2 <= q)%Q.
Proof.
  split; intro H.
  - apply Qle_trans with (inject_Z (Qfloor q)).
    + rewrite <- Zle_Qle. exact H.
    + apply Qfloor_le.
  - rewrite <- (Qfloor_Z 2). apply Qfloor_resp_le, H.
Qed.

(** The number of pages of [total] items, [k] per page, covers them. *)
Lemma ceilDiv_pos (total k : Z) :
  0 <= total -> 0 < k ->
  exists m, ceilDiv total (Int k) = Int m /\ 0 <= m /\ total <= m * k.
Proof.
  intros Ht Hk. unfold ceilDiv.
  destruct (Z.eqb_spec k 0) as [E | _]; [lia|].
  exists (- (- total / k)). split; [reflexivity|].
  pose proof (Z.div_mod (- total) k ltac:(lia)) as Hdm.
  pose proof (Z.mod_pos_bound (- total) k Hk) as Hmod.
  nia.
Qed.

(** C6, as the code has it: on the empty list, for every page and every
    limit other than NaN, the metadata has total 0, totalPages 0 and hasNext
    false; hasPrev is true exactly when the page is 2 or more (Infinity
    included). *)
Theorem paginate_empty_metadata (T : Type) (page limit : number) :
  limit <> NaN ->
  let m := pagination (paginateResults (@nil T) page limit) in
  Meta.total m = 0
  /\ Meta.totalPages m = Int 0
  /\ Meta.hasNext m = false
  /\ (Meta.hasPrev m = true
      <-> page = Infinity \/ exists q, page = Num q /\ (inject_Z 2 <= q)%Q).
Proof.
  intros Hl m. subst m. unfold paginateResults. cbn [pagination Meta.total
    Meta.totalPages Meta.hasNext Meta.hasPrev List.length Z.of_nat].
  destruct (itemsPerPage_range limit Hl) as [k [Hk Hr]]. rewrite Hk.
  assert (Htp : ceilDiv 0 (Int k) = Int 0).
  { unfold ceilDiv. destruct (Z.eqb_spec k 0); [lia|]. reflexivity. }
  rewrite Htp. split; [reflexivity|]. split; [reflexivity|]. split.
  - destruct page as [| | |q]; simpl; try reflexivity.
    apply Z.ltb_ge. lia.
  - destruct page as [| | |q]; simpl.
    + split; [discriminate|]. intros [H | [q [H _]]]; discriminate.
    + split; [discriminate|]. intros [H | [q [H _]]]; discriminate.
    + split; auto.
    + rewrite Z.ltb_lt. split.
      * intro H. right. exists q. split; [reflexivity|].
        apply floor_ge_2. lia.
      * intros [H | [q' [H Hq]]]; [discriminate|].
        inversion H; subst q'. apply floor_ge_2 in Hq. lia.
Qed.

Lemma paginate_empty_metadata_witness :
  Meta.totalPages (pagination (paginateResults (@nil Product)
                                 (Num (inject_Z 2)) (Num (inject_Z 10)))) = Int 0
  /\ Meta.hasPrev (pagination (paginateResults (@nil Product)
                                 (Num (inject_Z 2)) (Num (inject_Z 10)))) = true.
Proof.
  assert (Hl : Num (inject_Z 10) <> NaN) by discriminate.
  destruct (paginate_empty_metadata Product (Num (inject_Z 2)) (Num (inject_Z 10)) Hl)
    as [_ [Htp [_ Hprev]]].
  split; [exact Htp|].
  apply Hprev. right. exists (inject_Z 2). split; [reflexivity|].
  unfold Qle. simpl. lia.
Defined.

(** C6 fails as stated: on the empty list page 2 has a previous page. *)
Lemma paginate_empty_page_two_has_prev :
  Meta.hasPrev
    (pagination (paginateResults (@nil Product) (Num (inject_Z 2)) (Num (inject_Z 10))))
  <> false.
Proof. vm_compute. discriminate. Qed.

(** With a limit that is NaN the number of pages of the empty list is NaN. *)
Lemma paginate_empty_limit_NaN :
  Meta.totalPages (pagination (paginateResults (@nil Product) (Num (inject_Z 1)) NaN))
  = INaN.
Proof. reflexivity. Qed.

(** A slice between two positions that are not negative. *)
Lemma slice_nonneg {A : Type} (items : list A) (s e : Z) :
  0 <= s <= e ->
  slice items (Int s) (Int e)
  = firstn (Z.to_nat (e - s)) (skipn (Z.to_nat s) items).
Proof.
  intros [Hs He]. unfold slice, relativeIndex.
  set (len := Z.of_nat (List.length items)).
  destruct (Z.ltb_spec s 0) as [?|_]; [lia|].
  destruct (Z.ltb_spec e 0) as [?|_]; [lia|].
  destruct (Z.le_gt_cases len s) as [Hout | Hin].
  - (* the start is past the end of the array *)
    rewrite !skipn_all2 by (unfold len in *; lia).
    rewrite !firstn_nil. reflexivity.
  - replace (Z.min s len) with s by lia.
    destruct (Z.le_gt_cases e len) as [Hfit | Hover].
    + replace (Z.min e len) with e by lia. reflexivity.
    + replace (Z.min e len) with len by lia.
      rewrite !firstn_all2; [reflexivity| |];
        rewrite length_skipn; unfold len in *; lia.
Qed.

Lemma firstn_plus {A : Type} (a b : nat) (l : list A) :
  firstn (a + b) l = firstn a l ++ firstn b (skipn a l).
Proof.
  revert l. induction a as [|a IH]; intro l; simpl.
  - reflexivity.
  - destruct l as [|x xs]; simpl.
    + rewrite firstn_nil. reflexivity.
    + f_equal. apply IH.
Qed.

(** The first [m] chunks of [n] items make the first [m * n] items. *)
Lemma chunks_firstn {A : Type} (n m : nat) (items : list A) :
  List.concat (map (fun i => firstn n (skipn ((i - 1) * n) items)) (seq 1 m))
  = firstn (m * n) items.
Proof.
  induction m as [|m IH].
  - reflexivity.
  - rewrite seq_S, map_app, concat_app, IH. cbn [map List.concat].
    rewrite app_nil_r.
    replace (1 + m - 1)%nat with m by lia.
    replace (S m * n)%nat with (m * n + n)%nat by lia.
    symmetry. apply firstn_plus.
Qed.

(** The data of page [i] when the normalised limit is [k]. *)
Lemma page_data {T : Type} (items : list T) (limit : number) (k : Z) (i : nat) :
  Math_min (Math_max (Int 1) (Math_floor limit)) (Int 100) = Int k ->
  0 < k -> (1 <= i)%nat ->
  data (paginateResults items (Num (inject_Z (Z.of_nat i))) limit)
  = firstn (Z.to_nat k) (skipn ((i - 1) * Z.to_nat k) items).
Proof.
  intros Hk Hpos Hi. unfold paginateResults. cbn [data]. rewrite Hk.
  cbn [Math_floor]. rewrite Qfloor_Z. cbn [Math_max isub ineg iadd imul].
  replace (Z.max 1 (Z.of_nat i)) with (Z.of_nat i) by lia.
  rewrite slice_nonneg by nia. f_equal.
  - f_equal. lia.
  - f_equal. nia.
Qed.

(** C7: for every list and every limit between 1 and 100, the data of the
    pages 1 to totalPages, one after the other, is the list itself. *)
Theorem pages_cover_items (T : Type) (items : list T) (limit : Q) :
  (inject_Z 1 <= limit)%Q -> (limit <= inject_Z 100)%Q ->
  allPages items (Num limit) = items.
Proof.
  intros Hlo Hhi. unfold allPages.
  destruct (itemsPerPage_of_valid limit Hlo Hhi) as [Hk Hr].
  set (k := Qfloor limit) in *.
  assert (Htp : Meta.totalPages
                  (pagination (paginateResults items (Num (inject_Z 1)) (Num limit)))
                = ceilDiv (Z.of_nat (List.length items)) (Int k)).
  { unfold paginateResults. cbn [pagination Meta.totalPages]. rewrite Hk. reflexivity. }
  rewrite Htp.
  destruct (ceilDiv_pos (Z.of_nat (List.length items)) k ltac:(lia) ltac:(lia))
    as [m [Hm [Hm0 Hcover]]].
  rewrite Hm. unfold pageNumbers. rewrite map_map.
  rewrite (map_ext_in _ (fun i => firstn (Z.to_nat k)
                                    (skipn ((i - 1) * Z.to_nat k) items))).
  - rewrite chunks_firstn. apply firstn_all2. nia.
  - intros i Hi. apply in_seq in Hi. apply page_data; [exact Hk | lia | lia].
Qed.

Lemma pages_cover_items_witness :
  allPages [1; 2; 3; 4; 5; 6; 7] (Num (inject_Z 3)) = [1; 2; 3; 4; 5; 6; 7].
Proof.
  apply (pages_cover_items Z [1; 2; 3; 4; 5; 6; 7] (inject_Z 3));
    unfold Qle; simpl; lia.
Defined.

(** The scenario of the design document: page 3 of 25 items, 10 per page. *)
Example paginate_25_page_3 :
  let r := paginateResults (map Z.of_nat (seq 0 25)) (Num (inject_Z 3)) (Num (inject_Z 10)) in
  data r = [20; 21; 22; 23; 24]
  /\ pagination r = Meta.mk (Int 3) (Int 10) 25 (Int 3) false true.
Proof. split; reflexivity. Qed.

(** ** The orchestrator *)

Lemma sortProducts_perm (localeCompare : string -> string -> Z)
  (l : list Product) (sortBy : option string) :
  Permutation (sortProducts localeCompare l sortBy) l.
Proof.
  unfold sortProducts. destruct sortBy as [key|]; [|apply Permutation_refl].
  repeat match goal with
         | |- context [if ?b then _ else _] => destruct b
         end;
    first [apply Permutation_refl | apply Array_sort_perm].
Qed.

(** A slice is a run of consecutive items of the array. *)
Lemma slice_infix {A : Type} (items : list A) (s e : integral) :
  exists before after, items = before ++ slice items s e ++ after.
Proof.
  unfold slice.
  set (k := Z.to_nat (relativeIndex _ s)).
  set (n := Z.to_nat (_ - _)).
  exists (firstn k items), (skipn n (skipn k items)).
  rewrite (firstn_skipn n (skipn k items)). symmetry. apply firstn_skipn.
Qed.

Lemma slice_In {A : Type} (items : list A) (s e : integral) (x : A) :
  In x (slice items s e) -> In x items.
Proof.
  intro H. destruct (slice_infix items s e) as [before [after Heq]].
  rewrite Heq. apply in_or_app. right. apply in_or_app. left. exact H.
Qed.

(** C1, as the code has it: [getProducts] filters, sorts and paginates, in
    this order, with page 1 and limit 12 as defaults. The search string acts
    only as the substring criterion of the filter: no relevance stage runs,
    so without a sort key the page is a run of consecutive filtered products
    in catalog order. The total counts the filtered products, every product
    of the page passes the filter, and the envelope has no facet summary. *)
Theorem getProducts_pipeline (localeCompare : string -> string -> Z)
  (products : list Product) (f : Filters.FilterParams) :
  let filtered := filterProducts products f in
  let r := getProducts localeCompare products f in
  r = paginateResults (sortProducts localeCompare filtered (Filters.sortBy f))
        (orElse (Filters.page f) (Num (inject_Z 1)))
        (orElse (Filters.limit f) (Num (inject_Z 12)))
  /\ filters r = None
  /\ Meta.total (pagination r) = Z.of_nat (List.length filtered)
  /\ (forall p, In p (data r) -> In p products /\ filterCallback f p = true)
  /\ (Filters.sortBy f = None ->
      exists before after, filtered = before ++ data r ++ after).
Proof.
  intros filtered r. split; [reflexivity|]. split; [reflexivity|]. split.
  - subst r. unfold getProducts, paginateResults. cbn [pagination Meta.total].
    f_equal. apply Permutation_length, sortProducts_perm.
  - split.
    + intros p Hp. subst r. unfold getProducts, paginateResults in Hp.
      cbn [data] in Hp. apply slice_In in Hp.
      apply (Permutation_in _ (sortProducts_perm _ _ _)) in Hp.
      apply filter_In in Hp. exact Hp.
    + intro Hsort. subst r. unfold getProducts, paginateResults. cbn [data].
      rewrite Hsort. cbn [sortProducts]. apply slice_infix.
Qed.

Lemma getProducts_pipeline_witness :
  data (getProducts ordinalCompare [deskLamp; lamp; mouse] (searchOnly "lamp"))
  = [deskLamp; lamp].
Proof.
  destruct (getProducts_pipeline ordinalCompare [deskLamp; lamp; mouse]
              (searchOnly "lamp")) as [Heq _].
  rewrite Heq. vm_compute. reflexivity.
Defined.

(** C1 fails as stated: for the search "lamp" the pipeline of the design
    document ranks the exact name first and attaches the facets; the code
    keeps the catalog order and attaches none. *)
Lemma getProducts_differs_from_spec_pipeline :
  data (getProducts ordinalCompare [deskLamp; lamp] (searchOnly "lamp"))
  = [deskLamp; lamp]
  /\ data (spec_getProducts ordinalCompare [deskLamp; lamp] (searchOnly "lamp"))
     = [lamp; deskLamp]
  /\ filters (getProducts ordinalCompare [deskLamp; lamp] (searchOnly "lamp")) = None
  /\ filters (spec_getProducts ordinalCompare [deskLamp; lamp] (searchOnly "lamp"))
     <> None
  /\ getProducts ordinalCompare [deskLamp; lamp] (searchOnly "lamp")
     <> spec_getProducts ordinalCompare [deskLamp; lamp] (searchOnly "lamp").
Proof.
  repeat split; try (vm_compute; reflexivity); vm_compute; discriminate.
Qed.

Lemma filter_search_matches_across_fields_witness :
  filterCallback (searchOnly "running shoe") trailShoe = true.
Proof.
  rewrite (proj1 filter_search_matches_across_fields "running shoe" trailShoe).
  - vm_compute. reflexivity.
  - discriminate.
Defined.


(** ** Further scenarios of the design document *)

(** A price window of 1000 to 3000 keeps the headphones and drops the mouse. *)
Example filter_price_window :
  filterProducts [headphones; mouse]
    (Filters.mk None (Some 1000) (Some 3000) None None None None None None)
  = [headphones].
Proof. reflexivity. Qed.

(** The facets of the two products: tags without duplicates in ordinal
    order, and the range of their prices. *)
Example facets_of_scenario :
  getAvailableFilterOptions [headphones; mouse; headphones]
  = Facets.mk [""] ["audio"; "wired"; "wireless"]
              (Facets.mkRange (Int 999) (Int 2999)).
Proof. vm_compute. reflexivity. Qed.


(** * Further properties of the engine *)

(** ** The filter stage *)

Lemma filter_twice {A : Type} (f : A -> bool) (l : list A) :
  filter f (filter f l) = filter f l.
Proof.
  induction l as [|x xs IH]; simpl; [reflexivity|].
  destruct (f x) eqn:E; simpl; [rewrite E, IH|]; auto.
Qed.

(** X1: filtering the output of the filter again, with the same filters,
    changes nothing. *)
Theorem filterProducts_idempotent (products : list Product) (f : Filters.FilterParams) :
  filterProducts (filterProducts products f) f = filterProducts products f.
Proof. unfold filterProducts. apply filter_twice. Qed.

Lemma includes_empty (s : string) : includes s "" = true.
Proof. destruct s; reflexivity. Qed.

Lemma Array_includes_In (l : list string) (x : string) :
  Array_includes l x = true <-> In x l.
Proof.
  unfold Array_includes. rewrite existsb_exists. split.
  - intros [y [Hin Heq]]. apply String.eqb_eq in Heq. subst y. exact Hin.
  - intro Hin. exists x. split; [exact Hin | apply String.eqb_refl].
Qed.

(** What a product accepted by the callback of the filter satisfies. *)
Lemma filterCallback_sound (f : Filters.FilterParams) (p : Product) :
  filterCallback f p = true ->
  (forall c, Filters.category f = Some c -> c <> "" -> category p = c)
  /\ (forall m, Filters.minPrice f = Some m -> m <= price p)
  /\ (forall m, Filters.maxPrice f = Some m -> price p <= m)
  /\ (Filters.inStock f = Some true -> inStock (inventory p) = true)
  /\ (forall ts, Filters.tags f = Some ts -> ts <> [] ->
                 exists t, In t ts /\ In t (tags p)).
Proof.
  intro Hcb. unfold filterCallback in Hcb.
  match type of Hcb with
  | (if ?b then _ else _) = _ => destruct b eqn:E1; [discriminate|]
  end.
  match type of Hcb with
  | (if ?b then _ else _) = _ => destruct b eqn:E2; [discriminate|]
  end.
  match type of Hcb with
  | (if ?b then _ else _) = _ => destruct b eqn:E3; [discriminate|]
  end.
  match type of Hcb with
  | (if ?b then _ else _) = _ => destruct b eqn:E4; [discriminate|]
  end.
  match type of Hcb with
  | (if ?b then _ else _) = _ => destruct b eqn:E5; [discriminate|]
  end.
  clear Hcb. repeat split.
  - intros c Hc Hne. rewrite Hc in E1. apply truthy_true_iff in Hne.
    rewrite Hne in E1. simpl in E1.
    apply negb_false_iff, String.eqb_eq in E1. exact E1.
  - intros m Hm. rewrite Hm in E2. apply Z.ltb_ge in E2. exact E2.
  - intros m Hm. rewrite Hm in E3. apply Z.ltb_ge in E3. exact E3.
  - intro Hst. rewrite Hst in E4. simpl in E4.
    apply negb_false_iff in E4. exact E4.
  - intros ts Hts Hne. rewrite Hts in E5.
    destruct ts as [|t0 ts']; [contradiction|].
    replace (0 <? Z.of_nat (List.length (t0 :: ts'))) with true in E5
      by (symmetry; apply Z.ltb_lt; simpl List.length; lia).
    rewrite andb_true_l in E5. apply negb_false_iff in E5.
    unfold some in E5. apply existsb_exists in E5.
    destruct E5 as [t [Hin1 Hin2]].
    exists t. split; [exact Hin1 | apply Array_includes_In; exact Hin2].
Qed.


(** X2: every product the filter returns comes from the input and meets
    every criterion that is set: the category (when not the empty string),
    both price bounds, the in-stock flag when true, and at least one of the
    tags (when the list is not empty). *)
Theorem filterProducts_sound
  (products : list Product) (f : Filters.FilterParams) (p : Product) :
  In p (filterProducts products f) ->
  In p products
  /\ (forall c, Filters.category f = Some c -> c <> "" -> category p = c)
  /\ (forall m, Filters.minPrice f = Some m -> m <= price p)
  /\ (forall m, Filters.maxPrice f = Some m -> price p <= m)
  /\ (Filters.inStock f = Some true -> inStock (inventory p) = true)
  /\ (forall ts, Filters.tags f = Some ts -> ts <> [] ->
                 exists t, In t ts /\ In t (tags p)).
Proof.
  unfold filterProducts. rewrite filter_In. intros [Hin Hcb].
  split; [exact Hin | apply filterCallback_sound, Hcb].
Qed.

Lemma filterProducts_sound_witness :
  category lamp = "lighting" /\ price lamp <= 1000.
Proof.
  assert (Hin : In lamp (filterProducts [deskLamp; lamp; mouse]
                           (Filters.mk (Some "lighting") None (Some 1000) None
                                       None None None None None))).
  { vm_compute. left. reflexivity. }
  destruct (filterProducts_sound _ _ _ Hin) as [_ [Hc [_ [Hmax _]]]].
  split.
  - apply Hc; [reflexivity | discriminate].
  - apply Hmax. reflexivity.
Defined.

(** X3: a criterion that is absent or empty does not constrain: with the
    empty string as category, no price bound, a false in-stock flag, an empty
    tag list and the empty string as search, the filter returns its input,
    whatever the sort key and the page. *)
Theorem filterProducts_empty_criteria
  (products : list Product) (sortBy : option string) (page limit : option number) :
  filterProducts products
    (Filters.mk (Some "") None None (Some false) (Some []) (Some "") sortBy page limit)
  = products
  /\ filterProducts products
       (Filters.mk None None None None None None sortBy page limit)
     = products.
Proof.
  unfold filterProducts. split.
  - induction products as [|p ps IH]; simpl; [reflexivity|]. f_equal. exact IH.
  - induction products as [|p ps IH]; simpl; [reflexivity|]. f_equal. exact IH.
Qed.

(** X4: a search string that is empty after lower-casing and trimming
    keeps every product. The empty string skips the search criterion; a
    string of white space runs it, but its trimmed form is the empty string,
    which every text contains. *)
Theorem filterProducts_blank_search (products : list Product) (s : string) :
  trim (toLowerCase s) = "" ->
  filterProducts products (searchOnly s) = products.
Proof.
  intro Hs. unfold filterProducts.
  induction products as [|p ps IH]; simpl; [reflexivity|].
  unfold filterCallback at 1. simpl. rewrite Hs, includes_empty. simpl.
  rewrite andb_false_r. f_equal. exact IH.
Qed.

Lemma filterProducts_blank_search_witness :
  filterProducts [headphones; mouse] (searchOnly "  ") = [headphones; mouse]
  /\ searchProducts "  " [headphones; mouse] = [].
Proof.
  split.
  - apply (filterProducts_blank_search [headphones; mouse] "  ").
    vm_compute. reflexivity.
  - vm_compute. reflexivity.
Defined.

(** ** Sorting: order, fixed points and stability *)

Section SortFacts.

Context {A : Type} (cmp : A -> A -> Z).

Lemma sortInsert_HdRel (R : A -> A -> Prop) (y x : A) (l : list A) :
  HdRel R y l -> R y x -> HdRel R y (sortInsert cmp x l).
Proof.
  intros Hl Hx. destruct l as [|z zs]; simpl.
  - constructor. exact Hx.
  - destruct (0 <? cmp x z); constructor.
    + inversion Hl; assumption.
    + exact Hx.
Qed.

(** A sorted array is a fixed point of the sort. *)
Lemma Array_sort_fixed (l : list A) :
  Sorted (inOrder cmp) l -> Array_sort cmp l = l.
Proof.
  induction 1 as [|x xs Hs IH Hhd]; simpl; [reflexivity|].
  rewrite IH. destruct Hhd as [|y ys Hxy]; simpl; [reflexivity|].
  unfold inOrder in Hxy.
  destruct (Z.ltb_spec 0 (cmp x y)); [lia | reflexivity].
Qed.

Hypothesis cmp_antisym : forall x y, 0 < cmp x y -> cmp y x <= 0.

Lemma sortInsert_Sorted (x : A) (l : list A) :
  Sorted (inOrder cmp) l -> Sorted (inOrder cmp) (sortInsert cmp x l).
Proof.
  induction 1 as [|y ys Hs IH Hhd]; simpl.
  - repeat constructor.
  - destruct (Z.ltb_spec 0 (cmp x y)) as [Hgt | Hle].
    + constructor; [exact IH|].
      apply sortInsert_HdRel; [exact Hhd | apply cmp_antisym, Hgt].
    + constructor; [constructor; assumption|]. constructor. exact Hle.
Qed.

Lemma Array_sort_Sorted (l : list A) : Sorted (inOrder cmp) (Array_sort cmp l).
Proof.
  induction l as [|x xs IH]; simpl; [constructor|].
  apply sortInsert_Sorted, IH.
Qed.

Lemma Array_sort_idempotent (l : list A) :
  Array_sort cmp (Array_sort cmp l) = Array_sort cmp l.
Proof. apply Array_sort_fixed, Array_sort_Sorted. Qed.

End SortFacts.

Section SortByKey.

Context {A : Type} (cmp : A -> A -> Z) (le : A -> A -> Prop).

Hypothesis le_trans : forall x y z, le x y -> le y z -> le x z.
Hypothesis cmp_pos : forall x y, 0 < cmp x y -> le y x.
Hypothesis cmp_nonpos : forall x y, cmp x y <= 0 -> le x y.

Lemma sortInsert_StronglySorted (x : A) (l : list A) :
  StronglySorted le l -> StronglySorted le (sortInsert cmp x l).
Proof.
  induction 1 as [|y ys Hs IH Hall]; simpl.
  - repeat constructor.
  - destruct (Z.ltb_spec 0 (cmp x y)) as [Hgt | Hle].
    + constructor; [exact IH|].
      apply Forall_forall. intros z Hz.
      apply (Permutation_in _ (sortInsert_perm cmp x ys)) in Hz.
      destruct Hz as [Hz | Hz].
      * subst z. apply cmp_pos, Hgt.
      * rewrite Forall_forall in Hall. apply Hall, Hz.
    + constructor; [constructor; assumption|].
      constructor; [apply cmp_nonpos, Hle|].
      rewrite Forall_forall in *. intros z Hz.
      apply le_trans with y; [apply cmp_nonpos, Hle | apply Hall, Hz].
Qed.

Lemma Array_sort_StronglySorted (l : list A) :
  StronglySorted le (Array_sort cmp l).
Proof.
  induction l as [|x xs IH]; simpl; [constructor|].
  apply sortInsert_StronglySorted, IH.
Qed.

End SortByKey.

Section SortStable.

Context {A : Type} (cmp : A -> A -> Z) (P : A -> bool).

(** [P] selects a class of elements the comparator does not separate. *)
Hypothesis same_class : forall x y, 0 < cmp x y -> P x = true -> P y = false.

Lemma sortInsert_filter (x : A) (l : list A) :
  filter P (sortInsert cmp x l) = filter P (x :: l).
Proof.
  induction l as [|y ys IH]; [reflexivity|].
  simpl sortInsert. destruct (Z.ltb_spec 0 (cmp x y)) as [Hgt | Hle];
    [|reflexivity].
  simpl filter in *. rewrite IH.
  destruct (P x) eqn:Ex.
  - rewrite (same_class x y Hgt Ex). reflexivity.
  - reflexivity.
Qed.

Lemma Array_sort_filter (l : list A) :
  filter P (Array_sort cmp l) = filter P l.
Proof.
  induction l as [|x xs IH]; [reflexivity|].
  simpl Array_sort. rewrite sortInsert_filter. simpl. rewrite IH. reflexivity.
Qed.

End SortStable.

(** ** The sort stage *)

Lemma sgn_pos (n : Z) : 0 < Z.sgn n <-> 0 < n.
Proof. destruct n; simpl; lia. Qed.

Lemma sgn_nonpos (n : Z) : Z.sgn n <= 0 <-> n <= 0.
Proof. destruct n; simpl; lia. Qed.

Lemma Qsign_pos (a b : Q) : 0 < Qsign (a - b) <-> (b < a)%Q.
Proof.
  unfold Qsign, Qlt. destruct a as [an ad], b as [bn bd]. simpl.
  rewrite sgn_pos. lia.
Qed.

Lemma Qsign_nonpos (a b : Q) : Qsign (a - b) <= 0 <-> (a <= b)%Q.
Proof.
  unfold Qsign, Qle. destruct a as [an ad], b as [bn bd]. simpl.
  rewrite sgn_nonpos. lia.
Qed.

(** X5: for every sort key the sort stage only rearranges: the output is a
    permutation of the input, with the same length and the same members. *)
Theorem sortProducts_rearranges (localeCompare : string -> string -> Z)
  (l : list Product) (sortBy : option string) :
  Permutation (sortProducts localeCompare l sortBy) l
  /\ List.length (sortProducts localeCompare l sortBy) = List.length l
  /\ (forall p, In p (sortProducts localeCompare l sortBy) <-> In p l).
Proof.
  pose proof (sortProducts_perm localeCompare l sortBy) as Hperm.
  split; [exact Hperm|]. split; [apply Permutation_length, Hperm|].
  intro p. split; apply Permutation_in; [exact Hperm | apply Permutation_sym, Hperm].
Qed.

(** X6: the four numeric sort keys order the output: by rising price for
    "price-asc", by falling price for "price-desc", by falling creation time
    for "newest" and by falling average rating (0 when absent) for "rating";
    each product is in order with every later one. *)
Theorem sortProducts_ordered (localeCompare : string -> string -> Z) (l : list Product) :
  StronglySorted (fun a b => price a <= price b)
    (sortProducts localeCompare l (Some "price-asc"))
  /\ StronglySorted (fun a b => price b <= price a)
       (sortProducts localeCompare l (Some "price-desc"))
  /\ StronglySorted (fun a b => createdAt b <= createdAt a)
       (sortProducts localeCompare l (Some "newest"))
  /\ StronglySorted (fun a b => (ratingOrZero b <= ratingOrZero a)%Q)
       (sortProducts localeCompare l (Some "rating")).
Proof.
  unfold sortProducts. cbn [truthy String.eqb Ascii.eqb Bool.eqb negb].
  repeat split.
  - apply Array_sort_StronglySorted; intros; lia.
  - apply Array_sort_StronglySorted; intros; lia.
  - apply Array_sort_StronglySorted; intros; lia.
  - apply Array_sort_StronglySorted.
    + intros x y z Hxy Hyz. eapply Qle_trans; eassumption.
    + intros x y H. apply Qsign_pos in H. apply Qlt_le_weak, H.
    + intros x y H. apply Qsign_nonpos in H. exact H.
Qed.

(** X7: sorting twice with the same key gives what sorting once gives, for
    every key, as long as [localeCompare] never asks to swap a pair both
    ways. *)
Theorem sortProducts_idempotent (localeCompare : string -> string -> Z)
  (l : list Product) (sortBy : option string) :
  (forall a b, 0 < localeCompare a b -> localeCompare b a <= 0) ->
  sortProducts localeCompare (sortProducts localeCompare l sortBy) sortBy
  = sortProducts localeCompare l sortBy.
Proof.
  intro Hlc. unfold sortProducts. destruct sortBy as [key|]; [|reflexivity].
  repeat match goal with
         | |- context [if ?b then _ else _] => destruct b
         end;
    try reflexivity; apply Array_sort_idempotent.
  - intros x y H. lia.
  - intros x y H. lia.
  - intros x y H. apply Hlc, H.
  - intros x y H. lia.
  - intros x y H. apply Qsign_pos in H. apply Qsign_nonpos.
    apply Qlt_le_weak, H.
Qed.

Lemma sortProducts_idempotent_witness :
  sortProducts ordinalCompare
    (sortProducts ordinalCompare [headphones; mouse; lamp] (Some "price-asc"))
    (Some "price-asc")
  = [lamp; mouse; headphones].
Proof.
  rewrite (sortProducts_idempotent ordinalCompare [headphones; mouse; lamp]
             (Some "price-asc")).
  - vm_compute. reflexivity.
  - intros a b. unfold ordinalCompare, defaultCompare.
    rewrite (String.compare_antisym a b).
    destruct (String.compare b a); simpl; lia.
Defined.

(** X8: the sort is stable: under "price-asc" and "price-desc" the products
    of any one price, and under "newest" the products of any one creation
    time, come out in the order they came in. *)
Theorem sortProducts_stable (localeCompare : string -> string -> Z)
  (l : list Product) (v : Z) :
  filter (fun p => price p =? v) (sortProducts localeCompare l (Some "price-asc"))
  = filter (fun p => price p =? v) l
  /\ filter (fun p => price p =? v) (sortProducts localeCompare l (Some "price-desc"))
     = filter (fun p => price p =? v) l
  /\ filter (fun p => createdAt p =? v) (sortProducts localeCompare l (Some "newest"))
     = filter (fun p => createdAt p =? v) l.
Proof.
  unfold sortProducts. cbn [truthy String.eqb Ascii.eqb Bool.eqb negb].
  repeat split; apply Array_sort_filter; intros x y Hgt Hx;
    cbv beta in *; apply Z.eqb_eq in Hx; apply Z.eqb_neq; lia.
Qed.

(** ** The search stage: ranking *)

(** The scored pairs the search sorts. *)
Lemma scored_pairs_snd (q : string) (l : list Product) :
  Forall (fun ps => snd ps = scoreProduct q (fst ps))
    (Array_sort (fun a b : Product * Z => snd b - snd a)
       (filter (fun ps => 0 <? snd ps)
          (map (fun product => (product, scoreProduct q product)) l))).
Proof.
  apply Forall_forall. intros ps Hin.
  apply Array_sort_In, filter_In in Hin. destruct Hin as [Hin _].
  apply in_map_iff in Hin. destruct Hin as [p [Heq _]]. subst ps. reflexivity.
Qed.

Lemma map_fst_StronglySorted (g : Product -> Z) (l : list (Product * Z)) :
  Forall (fun ps => snd ps = g (fst ps)) l ->
  StronglySorted (fun a b => snd b <= snd a) l ->
  StronglySorted (fun a b => g b <= g a) (map fst l).
Proof.
  intros Hall Hs. induction Hs as [|x xs Hs IH Hx]; simpl; [constructor|].
  inversion Hall as [|? ? Hgx Hall']; subst.
  constructor; [apply IH, Hall'|].
  apply Forall_forall. intros p Hp. apply in_map_iff in Hp.
  destruct Hp as [ps [Hfst Hin]]. subst p.
  rewrite Forall_forall in Hx, Hall'.
  rewrite <- Hgx, <- (Hall' ps Hin). apply Hx, Hin.
Qed.

Lemma map_fst_filter (g : Product -> Z) (v : Z) (l : list (Product * Z)) :
  Forall (fun ps => snd ps = g (fst ps)) l ->
  filter (fun p => g p =? v) (map fst l)
  = map fst (filter (fun ps => snd ps =? v) l).
Proof.
  induction 1 as [|x xs Hx Hall IH]; simpl; [reflexivity|].
  rewrite IH, Hx. destruct (g (fst x) =? v); reflexivity.
Qed.

(** X9: the search returns the products by falling score, each product
    scoring at least as much as every later one, and products with the same
    score stay in the order of the input. *)
Theorem searchProducts_ranked (query : string) (products : list Product) (v : Z) :
  let q := trim (toLowerCase query) in
  StronglySorted (fun a b => scoreProduct q b <= scoreProduct q a)
    (searchProducts query products)
  /\ (q <> "" ->
      filter (fun p => scoreProduct q p =? v) (searchProducts query products)
      = filter (fun p => (scoreProduct q p =? v) && (0 <? v)) products).
Proof.
  intro q. unfold searchProducts. fold q. split.
  - destruct (truthy q); cbn [negb]; [|constructor].
    apply map_fst_StronglySorted; [apply scored_pairs_snd|].
    apply Array_sort_StronglySorted; intros; lia.
  - intro Hq. apply truthy_true_iff in Hq. rewrite Hq. cbn [negb].
    rewrite (map_fst_filter (scoreProduct q)) by apply scored_pairs_snd.
    rewrite Array_sort_filter.
    + destruct (Z.ltb_spec 0 v) as [Hv0 | Hv0];
        (induction products as [|p ps IH]; [reflexivity|]);
        cbn [map filter fst snd];
        destruct (Z.ltb_spec 0 (scoreProduct q p));
        cbn [map filter fst snd];
        destruct (Z.eqb_spec (scoreProduct q p) v);
        cbn [andb map fst]; try lia;
        first [exact IH | rewrite IH; reflexivity].
    + intros x y Hgt Hx. cbv beta in *. apply Z.eqb_eq in Hx.
      apply Z.eqb_neq. lia.
Qed.

Lemma searchProducts_ranked_witness :
  filter (fun p => scoreProduct "a" p =? 3) (searchProducts "a" [mouse; lamp; mouse])
  = [mouse; mouse].
Proof.
  transitivity
    (filter (fun p => (scoreProduct (trim (toLowerCase "a")) p =? 3) && (0 <? 3))
       [mouse; lamp; mouse]).
  - apply (proj2 (searchProducts_ranked "a" [mouse; lamp; mouse] 3)).
    vm_compute. discriminate.
  - vm_compute. reflexivity.
Defined.

Lemma lowerChar_idempotent (c : ascii) : lowerChar (lowerChar c) = lowerChar c.
Proof.
  destruct c as [[] [] [] [] [] [] [] []]; reflexivity.
Qed.

Lemma toLowerCase_idempotent (s : string) :
  toLowerCase (toLowerCase s) = toLowerCase s.
Proof.
  induction s as [|c s IH]; simpl; [reflexivity|].
  rewrite lowerChar_idempotent, IH. reflexivity.
Qed.

(** X10: the search ignores the case of the query: the lower-cased query
    gives the same result, and so does the lower-cased search string of the
    filter. *)
Theorem search_ignores_query_case (query : string) (products : list Product) :
  searchProducts (toLowerCase query) products = searchProducts query products
  /\ filterProducts products (searchOnly (toLowerCase query))
     = filterProducts products (searchOnly query).
Proof.
  split.
  - unfold searchProducts. rewrite toLowerCase_idempotent. reflexivity.
  - unfold filterProducts. apply filter_ext. intro p.
    unfold filterCallback, searchOnly. cbn.
    rewrite toLowerCase_idempotent.
    assert (Ht : truthy (toLowerCase query) = truthy query).
    { destruct query; reflexivity. }
    rewrite Ht. reflexivity.
Qed.

(** ** The facet summary *)

Lemma fold_Set_add_In (l acc : list string) (x : string) :
  In x (fold_left Set_add l acc) <-> In x acc \/ In x l.
Proof.
  revert acc. induction l as [|y ys IH]; intro acc; simpl.
  - tauto.
  - rewrite IH. unfold Set_add.
    destruct (Array_includes acc y) eqn:E.
    + apply Array_includes_In in E. split; [tauto|].
      intros [H | [H | H]]; subst; tauto.
    + rewrite in_app_iff. simpl. tauto.
Qed.

Lemma fold_Set_add_NoDup (l acc : list string) :
  NoDup acc -> NoDup (fold_left Set_add l acc).
Proof.
  revert acc. induction l as [|y ys IH]; intros acc Hnd; simpl; [exact Hnd|].
  apply IH. unfold Set_add. destruct (Array_includes acc y) eqn:E; [exact Hnd|].
  apply NoDup_app; [exact Hnd | repeat constructor; auto |].
  intros z Hz [Hy | []]. subst z.
  apply Array_includes_In in Hz. congruence.
Qed.

Lemma defaultCompare_antisym (x y : string) :
  0 < defaultCompare x y -> defaultCompare y x <= 0.
Proof.
  unfold defaultCompare. rewrite (String.compare_antisym x y).
  destruct (String.compare y x); simpl; lia.
Qed.

(** Neighbours of a sorted array without duplicates are strictly ordered. *)
Lemma Sorted_strict (l : list string) :
  NoDup l -> Sorted (inOrder defaultCompare) l ->
  Sorted (fun a b => String.compare a b = Lt) l.
Proof.
  intros Hnd Hs. induction Hs as [|x xs Hs IH Hhd]; [constructor|].
  inversion Hnd as [|? ? Hnotin Hnd']; subst.
  constructor; [apply IH, Hnd'|].
  destruct Hhd as [|y ys Hxy]; constructor.
  unfold inOrder, defaultCompare in Hxy.
  destruct (String.compare x y) eqn:E; [|reflexivity|lia].
  apply String.compare_eq_iff in E. subst y. exfalso. apply Hnotin. left. reflexivity.
Qed.

Lemma sorted_set_facts (l : list string) :
  let out := Array_sort defaultCompare (Set_from l) in
  NoDup out
  /\ Sorted (fun a b => String.compare a b = Lt) out
  /\ (forall x, In x out <-> In x l).
Proof.
  intro out.
  assert (Hnd : NoDup out).
  { apply (Permutation_NoDup (Permutation_sym (Array_sort_perm _ _))).
    apply fold_Set_add_NoDup. constructor. }
  split; [exact Hnd|]. split.
  - apply Sorted_strict; [exact Hnd|].
    apply Array_sort_Sorted. exact defaultCompare_antisym.
  - intro x. unfold out. rewrite Array_sort_In. unfold Set_from.
    rewrite fold_Set_add_In. simpl. tauto.
Qed.

(** X11: the categories of the facet summary are exactly the categories of
    the given products, each once, in strictly rising ordinal order; the same
    holds for the tags. *)
Theorem facets_lists_sorted_sets (products : list Product) :
  let fo := getAvailableFilterOptions products in
  NoDup (Facets.categories fo)
  /\ Sorted (fun a b => String.compare a b = Lt) (Facets.categories fo)
  /\ (forall c, In c (Facets.categories fo)
                <-> exists p, In p products /\ category p = c)
  /\ NoDup (Facets.tags fo)
  /\ Sorted (fun a b => String.compare a b = Lt) (Facets.tags fo)
  /\ (forall t, In t (Facets.tags fo)
                <-> exists p, In p products /\ In t (tags p)).
Proof.
  intro fo. unfold fo, getAvailableFilterOptions.
  cbn [Facets.categories Facets.tags].
  destruct (sorted_set_facts (map category products)) as [Hc1 [Hc2 Hc3]].
  destruct (sorted_set_facts (flat_map tags products)) as [Ht1 [Ht2 Ht3]].
  repeat split; try assumption.
  - intro H. apply Hc3, in_map_iff in H. destruct H as [p [Hp Hin]]. eauto.
  - intros [p [Hin Hp]]. apply Hc3, in_map_iff. eauto.
  - intro H. apply Ht3, in_flat_map in H. exact H.
  - intro H. apply Ht3, in_flat_map. exact H.
Qed.

Lemma fold_min_Int (l : list Z) (m : Z) :
  fold_left (fun a p => Math_min a (Int p)) l (Int m) = Int (fold_left Z.min l m).
Proof.
  revert m. induction l as [|x xs IH]; intro m; simpl; [reflexivity|]. apply IH.
Qed.

Lemma fold_max_Int (l : list Z) (m : Z) :
  fold_left (fun a p => Math_max a (Int p)) l (Int m) = Int (fold_left Z.max l m).
Proof.
  revert m. induction l as [|x xs IH]; intro m; simpl; [reflexivity|]. apply IH.
Qed.

Lemma fold_min_spec (l : list Z) (m : Z) :
  let r := fold_left Z.min l m in
  r <= m /\ (forall x, In x l -> r <= x) /\ (r = m \/ In r l).
Proof.
  revert m. induction l as [|x xs IH]; intro m; simpl.
  - split; [lia|]. split; [tauto | auto].
  - destruct (IH (Z.min m x)) as [H1 [H2 H3]]. split; [lia|]. split.
    + intros y [Hy | Hy]; [subst y; lia | apply H2, Hy].
    + destruct H3 as [H3 | H3]; [|right; right; exact H3].
      destruct (Z.min_spec m x) as [[_ E] | [_ E]].
      * left. rewrite H3. exact E.
      * right. left. rewrite H3. symmetry. exact E.
Qed.

Lemma fold_max_spec (l : list Z) (m : Z) :
  let r := fold_left Z.max l m in
  m <= r /\ (forall x, In x l -> x <= r) /\ (r = m \/ In r l).
Proof.
  revert m. induction l as [|x xs IH]; intro m; simpl.
  - split; [lia|]. split; [tauto | auto].
  - destruct (IH (Z.max m x)) as [H1 [H2 H3]]. split; [lia|]. split.
    + intros y [Hy | Hy]; [subst y; lia | apply H2, Hy].
    + destruct H3 as [H3 | H3]; [|right; right; exact H3].
      destruct (Z.max_spec m x) as [[_ E] | [_ E]].
      * right. left. rewrite H3. symmetry. exact E.
      * left. rewrite H3. exact E.
Qed.

(** X12: for a list of products that is not empty the price range of the
    facet summary is finite, its bounds are prices of products of the list,
    and the price of every product of the list lies between them. *)
Theorem facets_price_range (products : list Product) :
  products <> [] ->
  exists lo hi,
    Facets.priceRange (getAvailableFilterOptions products)
    = Facets.mkRange (Int lo) (Int hi)
    /\ (forall p, In p products -> lo <= price p <= hi)
    /\ (exists p, In p products /\ price p = lo)
    /\ (exists p, In p products /\ price p = hi).
Proof.
  intro Hne. destruct products as [|p0 ps]; [contradiction|].
  unfold getAvailableFilterOptions. cbn [Facets.priceRange].
  unfold Math_min_all, Math_max_all. cbn [map fold_left Math_min Math_max].
  rewrite fold_min_Int, fold_max_Int.
  destruct (fold_min_spec (map price ps) (price p0)) as [Hlo1 [Hlo2 Hlo3]].
  destruct (fold_max_spec (map price ps) (price p0)) as [Hhi1 [Hhi2 Hhi3]].
  eexists. eexists. split; [reflexivity|]. split; [|split].
  - intros p [Hp | Hp].
    + subst p. lia.
    + pose proof (Hlo2 (price p) (in_map price ps p Hp)).
      pose proof (Hhi2 (price p) (in_map price ps p Hp)). lia.
  - destruct Hlo3 as [E | Hin].
    + exists p0. split; [left; reflexivity | symmetry; exact E].
    + apply in_map_iff in Hin. destruct Hin as [p [E Hp]].
      exists p. split; [right; exact Hp | exact E].
  - destruct Hhi3 as [E | Hin].
    + exists p0. split; [left; reflexivity | symmetry; exact E].
    + apply in_map_iff in Hin. destruct Hin as [p [E Hp]].
      exists p. split; [right; exact Hp | exact E].
Qed.

Lemma facets_price_range_witness :
  exists lo hi,
    Facets.priceRange (getAvailableFilterOptions [headphones; mouse])
    = Facets.mkRange (Int lo) (Int hi)
    /\ (forall p, In p [headphones; mouse] -> lo <= price p <= hi)
    /\ (exists p, In p [headphones; mouse] /\ price p = lo)
    /\ (exists p, In p [headphones; mouse] /\ price p = hi).
Proof.
  apply (facets_price_range [headphones; mouse]). discriminate.
Defined.

(** ** The pagination stage: one page *)

Lemma currentPage_ge_1 (page : number) (c : Z) :
  Math_max (Int 1) (Math_floor page) = Int c -> 1 <= c.
Proof.
  destruct page as [| | |q]; simpl; intro H; inversion H; lia.
Qed.

Lemma itemsPerPage_bounds (limit : number) (k : Z) :
  Math_min (Math_max (Int 1) (Math_floor limit)) (Int 100) = Int k ->
  1 <= k <= 100.
Proof.
  destruct limit as [| | |q]; simpl; intro H; inversion H; lia.
Qed.

Lemma paginate_data_eq {T : Type} (items : list T) (page limit : number) (c k : Z) :
  Math_max (Int 1) (Math_floor page) = Int c ->
  Math_min (Math_max (Int 1) (Math_floor limit)) (Int 100) = Int k ->
  data (paginateResults items page limit)
  = firstn (Z.to_nat k) (skipn (Z.to_nat ((c - 1) * k)) items).
Proof.
  intros Hc Hk. pose proof (currentPage_ge_1 _ _ Hc).
  pose proof (itemsPerPage_bounds _ _ Hk).
  unfold paginateResults. cbn [data]. rewrite Hc, Hk.
  cbn [isub ineg iadd imul]. rewrite slice_nonneg by nia.
  replace ((c + - (1)) * k + k - (c + - (1)) * k) with k by lia.
  replace (c + - (1)) with (c - 1) by lia. reflexivity.
Qed.

(** X13: when the normalised page [c] and limit [k] are finite, the data of
    the page are the items from position [(c - 1) * k] on, [k] of them or as
    many as are left: a page past the end is empty, and no page holds more
    than [k] items. *)
Theorem paginate_page_content (T : Type) (items : list T) (page limit : number)
  (c k : Z) :
  let r := paginateResults items page limit in
  let total := Z.of_nat (List.length items) in
  Meta.page (pagination r) = Int c ->
  Meta.limit (pagination r) = Int k ->
  1 <= c /\ 1 <= k <= 100
  /\ Meta.total (pagination r) = total
  /\ data r = firstn (Z.to_nat k) (skipn (Z.to_nat ((c - 1) * k)) items)
  /\ Z.of_nat (List.length (data r)) = Z.min k (Z.max 0 (total - (c - 1) * k)).
Proof.
  intros r total Hc Hk. unfold r in *.
  change (Math_max (Int 1) (Math_floor page) = Int c) in Hc.
  change (Math_min (Math_max (Int 1) (Math_floor limit)) (Int 100) = Int k) in Hk.
  pose proof (currentPage_ge_1 _ _ Hc). pose proof (itemsPerPage_bounds _ _ Hk).
  split; [assumption|]. split; [assumption|]. split; [reflexivity|].
  rewrite (paginate_data_eq items page limit c k Hc Hk).
  split; [reflexivity|].
  rewrite length_firstn, length_skipn. unfold total.
  assert (0 <= (c - 1) * k) by nia. lia.
Qed.

Lemma paginate_page_content_witness :
  data (paginateResults [1; 2; 3; 4; 5; 6; 7] (Num (inject_Z 3)) (Num (inject_Z 3)))
  = [7]
  /\ data (paginateResults [1; 2; 3; 4; 5; 6; 7] (Num (inject_Z 9)) (Num (inject_Z 3)))
     = [].
Proof.
  split.
  - destruct (paginate_page_content Z [1; 2; 3; 4; 5; 6; 7]
                (Num (inject_Z 3)) (Num (inject_Z 3)) 3 3 eq_refl eq_refl)
      as [_ [_ [_ [Hdata _]]]].
    rewrite Hdata. reflexivity.
  - destruct (paginate_page_content Z [1; 2; 3; 4; 5; 6; 7]
                (Num (inject_Z 9)) (Num (inject_Z 3)) 9 3 eq_refl eq_refl)
      as [_ [_ [_ [Hdata _]]]].
    rewrite Hdata. reflexivity.
Defined.

Lemma ceilDiv_bounds (total k : Z) :
  0 <= total -> 0 < k ->
  exists m, ceilDiv total (Int k) = Int m /\ (m - 1) * k < total <= m * k.
Proof.
  intros Ht Hk. unfold ceilDiv.
  destruct (Z.eqb_spec k 0) as [E | _]; [lia|].
  exists (- (- total / k)). split; [reflexivity|].
  pose proof (Z.div_mod (- total) k ltac:(lia)) as Hdm.
  pose proof (Z.mod_pos_bound (- total) k Hk) as Hmod.
  nia.
Qed.

(** X14: when the normalised page [c] and limit [k] are finite, hasNext is
    true exactly when items are left after this page, that is when
    [c * k] is less than the total, and hasPrev exactly when [c] is more
    than 1; totalPages is the least number of pages of [k] items that hold
    the total. *)
Theorem paginate_has_next (T : Type) (items : list T) (page limit : number)
  (c k : Z) :
  let m := pagination (paginateResults items page limit) in
  let total := Z.of_nat (List.length items) in
  Meta.page m = Int c ->
  Meta.limit m = Int k ->
  (Meta.hasNext m = true <-> c * k < total)
  /\ (Meta.hasPrev m = true <-> 1 < c)
  /\ exists n, Meta.totalPages m = Int n /\ (n - 1) * k < total <= n * k.
Proof.
  intros m total Hc Hk. unfold m in *.
  change (Math_max (Int 1) (Math_floor page) = Int c) in Hc.
  change (Math_min (Math_max (Int 1) (Math_floor limit)) (Int 100) = Int k) in Hk.
  pose proof (currentPage_ge_1 _ _ Hc). pose proof (itemsPerPage_bounds _ _ Hk).
  unfold paginateResults. cbn [pagination Meta.hasNext Meta.hasPrev Meta.totalPages].
  rewrite Hc, Hk. fold total.
  destruct (ceilDiv_bounds total k ltac:(unfold total; lia) ltac:(lia))
    as [n [Hn Hb]].
  rewrite Hn. cbn [ilt]. rewrite !Z.ltb_lt.
  split; [nia|]. split; [tauto|]. exists n. split; [reflexivity | exact Hb].
Qed.

Lemma paginate_has_next_witness :
  Meta.hasNext (pagination (paginateResults [1; 2; 3; 4; 5; 6; 7]
                              (Num (inject_Z 2)) (Num (inject_Z 3)))) = true.
Proof.
  destruct (paginate_has_next Z [1; 2; 3; 4; 5; 6; 7]
              (Num (inject_Z 2)) (Num (inject_Z 3)) 2 3 eq_refl eq_refl)
    as [Hnext _].
  apply Hnext. simpl. lia.
Defined.

(** X15: whatever the page and the limit, special values included, a page
    never holds more than 100 items, and it is empty when the page or the
    limit is NaN. *)
Theorem paginate_data_bounded (T : Type) (items : list T) (page limit : number) :
  (List.length (data (paginateResults items page limit)) <= 100)%nat
  /\ (page = NaN \/ limit = NaN -> data (paginateResults items page limit) = []).
Proof.
  assert (Hnan : page = NaN \/ limit = NaN ->
                 data (paginateResults items page limit) = []).
  { intros [H | H]; subst.
    - destruct limit as [| | |q]; reflexivity.
    - destruct page as [| | |q]; reflexivity. }
  split; [|exact Hnan].
  destruct (Math_max (Int 1) (Math_floor page)) as [| | |c] eqn:Hc.
  - destruct page as [| | |q]; try discriminate.
    rewrite Hnan by (left; reflexivity). simpl. lia.
  - destruct page as [| | |q]; discriminate.
  - destruct (Math_min (Math_max (Int 1) (Math_floor limit)) (Int 100))
      as [| | |k] eqn:Hk.
    + destruct limit as [| | |q]; try discriminate.
      rewrite Hnan by (right; reflexivity). simpl. lia.
    + destruct limit as [| | |q]; discriminate.
    + destruct limit as [| | |q]; discriminate.
    + pose proof (itemsPerPage_bounds _ _ Hk).
      unfold paginateResults. cbn [data]. rewrite Hc, Hk.
      assert (Hs : Z.sgn k = 1) by (destruct k; simpl; lia).
      cbn [isub ineg iadd imul isgn]. rewrite Hs. cbn [Z.mul Z.eqb Z.ltb Z.compare iadd Pos.mul].
      unfold slice. cbn [relativeIndex].
      rewrite Z.sub_diag. simpl. lia.
  - destruct (Math_min (Math_max (Int 1) (Math_floor limit)) (Int 100))
      as [| | |k] eqn:Hk.
    + destruct limit as [| | |q]; try discriminate.
      rewrite Hnan by (right; reflexivity). simpl. lia.
    + destruct limit as [| | |q]; discriminate.
    + destruct limit as [| | |q]; discriminate.
    + pose proof (itemsPerPage_bounds _ _ Hk).
      rewrite (paginate_data_eq items page limit c k Hc Hk).
      rewrite length_firstn. lia.
Qed.

(** ** Offsets and page number windows *)

(** X16: for a finite page and a finite limit of at most 100, [getOffset]
    is the position the page of [paginateResults] starts at: skipping that
    many items and keeping [limit] of them gives the data of the page. *)
Theorem getOffset_matches_page (T : Type) (items : list T) (p l : Q) :
  (l <= inject_Z 100)%Q ->
  let r := paginateResults items (Num p) (Num l) in
  exists off k,
    getOffset (Num p) (Num l) = Int off
    /\ 0 <= off
    /\ Meta.limit (pagination r) = Int k
    /\ data r = firstn (Z.to_nat k) (skipn (Z.to_nat off) items).
Proof.
  intros Hl r.
  assert (Hfl : Qfloor l <= 100).
  { rewrite <- (Qfloor_Z 100). apply Qfloor_resp_le, Hl. }
  exists ((Z.max 1 (Qfloor p) - 1) * Z.max 1 (Qfloor l)), (Z.max 1 (Qfloor l)).
  split.
  - unfold getOffset. simpl. f_equal.
  - split; [nia|]. split.
    + unfold r, paginateResults. cbn. f_equal. lia.
    + unfold r. apply paginate_data_eq; simpl; f_equal; lia.
Qed.

Lemma getOffset_matches_page_witness :
  exists off k,
    getOffset (Num (inject_Z 3)) (Num (inject_Z 2)) = Int off
    /\ 0 <= off
    /\ Meta.limit (pagination (paginateResults [1; 2; 3; 4; 5; 6; 7]
                                 (Num (inject_Z 3)) (Num (inject_Z 2)))) = Int k
    /\ data (paginateResults [1; 2; 3; 4; 5; 6; 7] (Num (inject_Z 3)) (Num (inject_Z 2)))
       = firstn (Z.to_nat k) (skipn (Z.to_nat off) [1; 2; 3; 4; 5; 6; 7]).
Proof.
  apply (getOffset_matches_page Z [1; 2; 3; 4; 5; 6; 7] (inject_Z 3) (inject_Z 2)).
  unfold Qle. simpl. lia.
Defined.

Lemma range_empty (a b : Z) : b < a -> range a b = [].
Proof.
  intro H. unfold range. replace (Z.to_nat (b - a + 1)) with 0%nat by lia.
  reflexivity.
Qed.

Lemma range_cons (a b : Z) : a <= b -> range a b = a :: range (a + 1) b.
Proof.
  intro H. unfold range.
  replace (Z.to_nat (b - a + 1)) with (S (Z.to_nat (b - (a + 1) + 1))) by lia.
  cbn [seq map]. f_equal; [lia|].
  rewrite <- seq_shift, map_map. apply map_ext. intro i. lia.
Qed.

(** The loop pushes the integers from [i] to [endPage], in rising order;
    the rounds [pushPages] allows are enough, and more change nothing. *)
Lemma forPush_range (fuel : nat) (i endPage : Z) (pages : list Z) :
  (Z.to_nat (endPage - i + 1) <= fuel)%nat ->
  forPush fuel i endPage pages = pages ++ range i endPage.
Proof.
  revert i pages. induction fuel as [|fuel IH]; intros i pages Hfuel.
  - simpl. rewrite range_empty by lia. symmetry. apply app_nil_r.
  - simpl. destruct (Z.leb_spec i endPage) as [Hle | Hgt].
    + rewrite IH by lia. rewrite (range_cons i endPage Hle).
      rewrite <- app_assoc. reflexivity.
    + rewrite range_empty by lia. symmetry. apply app_nil_r.
Qed.

Lemma pushPages_range (startPage endPage : Z) :
  pushPages startPage endPage [] = range startPage endPage.
Proof. unfold pushPages. rewrite forPush_range by lia. reflexivity. Qed.

Lemma Array_from_range (n : Z) : Array_from n (fun i => i + 1) = range 1 n.
Proof.
  unfold Array_from, range. replace (n - 1 + 1) with n by lia.
  apply map_ext. intro i. lia.
Qed.

(** The window of [w = 2 * h + 1] pages the service computes when there are
    more than [w] pages. *)
Lemma getPageNumbers_odd_window (c n h : Z) :
  0 <= h -> 2 * h + 1 < n ->
  exists s,
    1 <= s /\ s + 2 * h <= n
    /\ getPageNumbers c n (2 * h + 1)
       = map (fun i => s + Z.of_nat i) (seq 0 (Z.to_nat (2 * h + 1)))
    /\ (1 <= c <= n -> s <= c <= s + 2 * h).
Proof.
  intros Hh Hn. unfold getPageNumbers.
  destruct (Z.leb_spec n (2 * h + 1)) as [? | _]; [lia|].
  replace ((2 * h + 1) / 2) with h by (apply Z.div_unique with 1; lia).
  cbv zeta. rewrite pushPages_range.
  destruct (Z.leb_spec c h) as [Hc1 | Hc1];
    destruct (Z.leb_spec (n - h) c) as [Hc2 | Hc2]; try lia.
  - exists 1. unfold range.
    replace (Z.max 1 (c - h)) with 1 by lia.
    replace (Z.min (2 * h + 1) n - 1 + 1) with (2 * h + 1) by lia.
    repeat split; lia || reflexivity.
  - exists (n - (2 * h + 1) + 1). unfold range.
    replace (Z.max 1 (n - (2 * h + 1) + 1)) with (n - (2 * h + 1) + 1) by lia.
    replace (Z.min n (c + h) - (n - (2 * h + 1) + 1) + 1) with (2 * h + 1) by lia.
    repeat split; lia || reflexivity.
  - exists (c - h). unfold range.
    replace (Z.max 1 (c - h)) with (c - h) by lia.
    replace (Z.min n (c + h) - (c - h) + 1) with (2 * h + 1) by lia.
    repeat split; lia || reflexivity.
Qed.

(** With at most [w] pages the service returns the list 1, 2, ...,
    totalPages. *)
Lemma getPageNumbers_all_pages (c n w : Z) :
  n <= w ->
  getPageNumbers c n w = map (fun i => 1 + Z.of_nat i) (seq 0 (Z.to_nat n)).
Proof.
  intro Hn. unfold getPageNumbers.
  destruct (Z.leb_spec n w) as [_ | ?]; [|lia].
  unfold Array_from. apply map_ext. intro i. lia.
Qed.

(** The component and the service compute the same list. *)
Lemma Pagination_getPageNumbers_service (page totalPages : Z) :
  Pagination_getPageNumbers page totalPages = getPageNumbers page totalPages 5.
Proof.
  unfold Pagination_getPageNumbers, getPageNumbers. cbv zeta.
  destruct (totalPages <=? 5); [|reflexivity].
  rewrite pushPages_range, Array_from_range. reflexivity.
Qed.

(** X17: with an odd window size [w] and more than [w] pages,
    [getPageNumbers] returns exactly [w] consecutive page numbers between 1
    and totalPages, the current page among them when it is a page; with at
    most [w] pages it returns the list 1, 2, ..., totalPages (the empty list
    when totalPages is less than 1). *)
Theorem getPageNumbers_window (currentPage totalPages h : Z) :
  0 <= h ->
  let w := 2 * h + 1 in
  (w < totalPages ->
   exists s,
     1 <= s /\ s + w - 1 <= totalPages
     /\ getPageNumbers currentPage totalPages w
        = map (fun i => s + Z.of_nat i) (seq 0 (Z.to_nat w))
     /\ (1 <= currentPage <= totalPages -> s <= currentPage <= s + w - 1))
  /\ (totalPages <= w ->
      getPageNumbers currentPage totalPages w
      = map (fun i => 1 + Z.of_nat i) (seq 0 (Z.to_nat totalPages))).
Proof.
  intros Hh w. split.
  - intro Hn.
    destruct (getPageNumbers_odd_window currentPage totalPages h Hh Hn)
      as [s [H1 [H2 [H3 H4]]]].
    exists s. unfold w. split; [lia|]. split; [lia|]. split; [exact H3|].
    intro Hc. specialize (H4 Hc). lia.
  - apply getPageNumbers_all_pages.
Qed.

Lemma getPageNumbers_window_witness :
  (exists s,
      1 <= s /\ s + 5 - 1 <= 20
      /\ getPageNumbers 5 20 5 = map (fun i => s + Z.of_nat i) (seq 0 (Z.to_nat 5))
      /\ (1 <= 5 <= 20 -> s <= 5 <= s + 5 - 1))
  /\ getPageNumbers 2 3 5 = [1; 2; 3].
Proof.
  split.
  - apply (proj1 (getPageNumbers_window 5 20 2 ltac:(lia))). simpl. lia.
  - apply (proj2 (getPageNumbers_window 2 3 2 ltac:(lia))). simpl. lia.
Defined.

(** X18: the loops of the [Pagination] component fill in the list the
    service computes with window size 5: the list 1, 2, ..., totalPages when
    there are at most 5 pages, and otherwise exactly 5 consecutive pages
    between 1 and totalPages, the current page among them when it is a
    page. *)
Theorem Pagination_component_window (page totalPages : Z) :
  Pagination_getPageNumbers page totalPages = getPageNumbers page totalPages 5
  /\ (totalPages <= 5 ->
      Pagination_getPageNumbers page totalPages
      = map (fun i => 1 + Z.of_nat i) (seq 0 (Z.to_nat totalPages)))
  /\ (5 < totalPages ->
      exists s,
        1 <= s /\ s + 4 <= totalPages
        /\ Pagination_getPageNumbers page totalPages = [s; s + 1; s + 2; s + 3; s + 4]
        /\ (1 <= page <= totalPages -> s <= page <= s + 4)).
Proof.
  pose proof (Pagination_getPageNumbers_service page totalPages) as Heq.
  split; [exact Heq|]. rewrite Heq. split.
  - apply getPageNumbers_all_pages.
  - intro Hn.
    destruct (getPageNumbers_odd_window page totalPages 2 ltac:(lia) ltac:(lia))
      as [s [H1 [H2 [H3 H4]]]].
    exists s. split; [lia|]. split; [lia|]. split; [|lia].
    change (2 * 2 + 1) with 5 in H3. rewrite H3. simpl.
    repeat (f_equal; try lia).
Qed.

(** ** The products service *)

Lemma toIntegerOrInfinity_nonneg (q : Q) :
  (inject_Z 0 <= q)%Q ->
  toIntegerOrInfinity (Num q) = Int (Qfloor q) /\ 0 <= Qfloor q.
Proof.
  intro H. unfold toIntegerOrInfinity.
  apply Qle_bool_iff in H. rewrite H. split; [reflexivity|].
  apply Qle_bool_iff in H. rewrite <- (Qfloor_Z 0). apply Qfloor_resp_le, H.
Qed.

(** [slice(0, limit)] keeps a prefix of the array. *)
Lemma firstItems_firstn {A : Type} (items : list A) (limit : number) :
  firstItems items limit
  = firstn (Z.to_nat (relativeIndex (Z.of_nat (List.length items))
                        (toIntegerOrInfinity limit))) items.
Proof.
  unfold firstItems, slice. cbn [relativeIndex].
  replace (Z.min 0 (Z.of_nat (List.length items))) with 0 by lia.
  rewrite Z.sub_0_r. reflexivity.
Qed.

Lemma firstItems_In {A : Type} (items : list A) (limit : number) (x : A) :
  In x (firstItems items limit) -> In x items.
Proof. apply slice_In. Qed.

Lemma firstItems_Infinity {A : Type} (items : list A) :
  firstItems items Infinity = items.
Proof.
  rewrite firstItems_firstn. cbn [toIntegerOrInfinity relativeIndex].
  rewrite Nat2Z.id. apply firstn_all.
Qed.

Lemma firstItems_length {A : Type} (items : list A) (q : Q) :
  (inject_Z 0 <= q)%Q ->
  Z.of_nat (List.length (firstItems items (Num q)))
  = Z.min (Qfloor q) (Z.of_nat (List.length items)).
Proof.
  intro H. destruct (toIntegerOrInfinity_nonneg q H) as [E Hpos].
  rewrite firstItems_firstn, E. cbn [relativeIndex].
  destruct (Z.ltb_spec (Qfloor q) 0); [lia|].
  rewrite length_firstn. lia.
Qed.

Lemma firstn_StronglySorted {A : Type} (R : A -> A -> Prop) (n : nat) (l : list A) :
  StronglySorted R l -> StronglySorted R (firstn n l).
Proof.
  intro Hs. revert n. induction Hs as [|x xs Hs IH Hall]; intro n.
  - rewrite firstn_nil. constructor.
  - destruct n as [|n]; simpl; [constructor|].
    constructor; [apply IH|].
    rewrite Forall_forall in *. intros y Hy. apply Hall.
    rewrite <- (firstn_skipn n xs). apply in_or_app. left. exact Hy.
Qed.

Lemma filter_length_split {A : Type} (f : A -> bool) (l : list A) :
  (List.length (filter f l) + List.length (filter (fun x => negb (f x)) l)
   = List.length l)%nat.
Proof.
  induction l as [|x xs IH]; simpl; [reflexivity|].
  destruct (f x); simpl; lia.
Qed.

Lemma filter_length_bound {A : Type} (f : A -> bool) (l : list A) :
  (List.length (filter f l) <= List.length l)%nat.
Proof.
  induction l as [|x xs IH]; simpl; [lia|]. destruct (f x); simpl; lia.
Qed.

Lemma filter_and_length {A : Type} (f g : A -> bool) (l : list A) :
  (List.length (filter (fun x => f x && g x) l) <= List.length (filter f l))%nat.
Proof.
  induction l as [|x xs IH]; simpl; [lia|].
  destruct (f x), (g x); simpl; lia.
Qed.

(** X19: the out-of-stock list holds exactly the catalog products whose
    inventory status says they cannot be ordered, and these are the products
    with status out-of-stock: not in stock, or with quantity 0. *)
Theorem out_of_stock_cannot_order (products : list Product) (p : Product) :
  (In p (getOutOfStockProducts products)
   <-> In p products /\ canOrder (getInventoryStatus p) = false)
  /\ (canOrder (getInventoryStatus p) = false
      <-> status (getInventoryStatus p) = out_of_stock)
  /\ (status (getInventoryStatus p) = out_of_stock
      <-> inStock (inventory p) = false \/ quantity (inventory p) = 0).
Proof.
  unfold getOutOfStockProducts, getInventoryStatus. rewrite filter_In.
  destruct (inStock (inventory p)); cbn [negb orb];
    destruct (Z.eqb_spec (quantity (inventory p)) 0) as [Hq | Hq];
    try destruct (quantity (inventory p) <=? lowStockThreshold (inventory p));
    cbn [canOrder status];
    repeat split; try tauto; try discriminate; try congruence; auto;
    intros; intuition (try discriminate; try congruence).
Qed.

(** X20: the low-stock list holds the catalog products with status
    low-stock and, besides them, the products flagged in stock with quantity
    0 and a threshold that is not negative, whose status is out-of-stock:
    such a product is in the low-stock list and in the out-of-stock list. *)
Theorem low_stock_list_and_status (products : list Product) (p : Product) :
  (In p (getLowStockProducts products)
   <-> In p products
       /\ (status (getInventoryStatus p) = low_stock
           \/ (inStock (inventory p) = true /\ quantity (inventory p) = 0
               /\ 0 <= lowStockThreshold (inventory p))))
  /\ (In p products -> inStock (inventory p) = true ->
      quantity (inventory p) = 0 -> 0 <= lowStockThreshold (inventory p) ->
      In p (getLowStockProducts products) /\ In p (getOutOfStockProducts products)).
Proof.
  unfold getLowStockProducts, getOutOfStockProducts, getInventoryStatus.
  rewrite !filter_In.
  destruct (inStock (inventory p)); cbn [negb orb andb];
    destruct (Z.eqb_spec (quantity (inventory p)) 0) as [Hq | Hq];
    destruct (Z.leb_spec (quantity (inventory p)) (lowStockThreshold (inventory p)));
    cbn [status]; split;
    intuition (try discriminate; try congruence; try lia).
Qed.

(** X21: in the statistics the in-stock and out-of-stock counts add up to
    the number of products, the low-stock count is at most the in-stock
    count, the featured count is at most the number of products, and the
    average price is NaN exactly when the catalog is empty. *)
Theorem product_stats_counts (products : list Product) :
  let s := getProductStats products in
  totalProducts s = Z.of_nat (List.length products)
  /\ statsInStock s + statsOutOfStock s = totalProducts s
  /\ 0 <= statsLowStock s <= statsInStock s
  /\ 0 <= statsFeatured s <= totalProducts s
  /\ (averagePrice s = INaN <-> products = []).
Proof.
  intro s. unfold s, getProductStats, getLowStockProducts.
  cbn [totalProducts statsInStock statsOutOfStock statsLowStock statsFeatured
       averagePrice].
  split; [reflexivity|]. split.
  - pose proof (filter_length_split (fun p => inStock (inventory p)) products) as Hsplit.
    cbv beta in Hsplit. lia.
  - split.
    + pose proof (filter_and_length (fun p => inStock (inventory p))
                    (fun p => quantity (inventory p) <=? lowStockThreshold (inventory p))
                    products) as Hlow.
      cbv beta in Hlow. lia.
    + split.
      * pose proof (filter_length_bound (fun p => featured p) products). lia.
      * destruct products as [|p ps]; simpl List.length.
        -- simpl. tauto.
        -- destruct (Z.eqb_spec (Z.of_nat (S (List.length ps))) 0); [lia|].
           split; discriminate.
Qed.

(** X22: listing by a category that is not the empty string returns only
    products of that category, whatever category the filters carry, and all
    of them come from the catalog. *)
Theorem getProductsByCategory_sound (localeCompare : string -> string -> Z)
  (products : list Product) (c : string) (f : Filters.FilterParams) (p : Product) :
  c <> "" ->
  In p (data (getProductsByCategory localeCompare products c f)) ->
  In p products /\ category p = c.
Proof.
  intros Hc Hin. unfold getProductsByCategory, getProducts, paginateResults in Hin.
  cbn [data] in Hin. apply slice_In in Hin.
  apply (Permutation_in _ (sortProducts_perm _ _ _)) in Hin.
  apply filter_In in Hin. destruct Hin as [Hp Hcb].
  destruct (filterCallback_sound _ _ Hcb) as [Hcat _].
  split; [exact Hp|]. apply Hcat; [reflexivity | exact Hc].
Qed.

Lemma getProductsByCategory_sound_witness :
  In lamp [deskLamp; lamp; mouse] /\ category lamp = "lighting".
Proof.
  apply (getProductsByCategory_sound ordinalCompare [deskLamp; lamp; mouse]
           "lighting" (Filters.mk (Some "audio") None None None None None None None None)
           lamp).
  - discriminate.
  - vm_compute. right. left. reflexivity.
Defined.

(** X23: a related product is a catalog product with another id that has
    the category of the given product or shares a tag with it; the given
    product itself is never among them. *)
Theorem getRelatedProducts_sound
  (products : list Product) (product : Product) (limit : number) :
  (forall p, In p (getRelatedProducts products product limit) ->
             In p products
             /\ id p <> id product
             /\ (category p = category product
                 \/ exists t, In t (tags p) /\ In t (tags product)))
  /\ ~ In product (getRelatedProducts products product limit).
Proof.
  assert (H : forall p, In p (getRelatedProducts products product limit) ->
                        In p products
                        /\ id p <> id product
                        /\ (category p = category product
                            \/ exists t, In t (tags p) /\ In t (tags product))).
  { intros p Hin. unfold getRelatedProducts in Hin.
    apply firstItems_In, filter_In in Hin. destruct Hin as [Hp Hcb].
    split; [exact Hp|].
    destruct (String.eqb_spec (id p) (id product)) as [E | E]; [discriminate|].
    split; [exact E|].
    destruct (String.eqb_spec (category p) (category product)) as [Ec | Ec];
      [left; exact Ec|].
    right. apply Z.ltb_lt in Hcb.
    destruct (filter (fun tag => Array_includes (tags product) tag) (tags p))
      as [|t ts] eqn:Ef; [simpl in Hcb; lia|].
    assert (Hin : In t (filter (fun tag => Array_includes (tags product) tag) (tags p)))
      by (rewrite Ef; left; reflexivity).
    apply filter_In in Hin. destruct Hin as [Ht1 Ht2].
    exists t. split; [exact Ht1 | apply Array_includes_In, Ht2]. }
  split; [exact H|].
  intro Hin. destruct (H product Hin) as [_ [Hid _]]. apply Hid. reflexivity.
Qed.

(** X24: every product of the on-sale list is a catalog product with an
    original price above its price and a discount percentage that is not
    null; without a limit the list holds exactly the catalog products whose
    discount percentage is not null. The percentage itself is the rounded
    value the code computes, whatever it is. *)
Theorem on_sale_has_discount (percentOff : Z -> Z -> Z)
  (products : list Product) (limit : number) (p : Product) :
  (In p (getProductsOnSale products limit) ->
   In p products
   /\ exists original,
        originalPrice p = Some original /\ price p < original
        /\ getDiscountPercentage percentOff p
           = Some (percentOff original (price p)))
  /\ (In p (getProductsOnSale products Infinity)
      <-> In p products /\ getDiscountPercentage percentOff p <> None).
Proof.
  assert (Hcb : (match originalPrice p with
                 | Some original => negb (original =? 0) && (price p <? original)
                 | None => false
                 end) = true
                <-> getDiscountPercentage percentOff p <> None).
  { unfold getDiscountPercentage. destruct (originalPrice p) as [o|].
    - destruct (Z.eqb_spec o 0), (Z.ltb_spec (price p) o), (Z.leb_spec o (price p));
        cbn [negb andb orb]; split; intro; try discriminate; try lia; congruence.
    - split; [discriminate | congruence]. }
  split.
  - intro Hin. unfold getProductsOnSale in Hin.
    apply firstItems_In, filter_In in Hin. destruct Hin as [Hp Hsale].
    split; [exact Hp|].
    unfold getDiscountPercentage. destruct (originalPrice p) as [o|]; [|discriminate].
    apply andb_true_iff in Hsale. destruct Hsale as [Hnz Hlt].
    apply negb_true_iff in Hnz. apply Z.ltb_lt in Hlt. rewrite Hnz.
    destruct (Z.leb_spec o (price p)); [lia|]. cbn [orb].
    exists o. split; [reflexivity|]. split; [exact Hlt | reflexivity].
  - unfold getProductsOnSale. rewrite firstItems_Infinity, filter_In.
    rewrite Hcb. reflexivity.
Qed.

(** X25: a search with a limit that is not negative returns the first
    results of [searchProducts], at most [limit] of them, echoes the query,
    and counts what it returns; the results are catalog products with a
    positive score, by falling score. *)
Theorem performSearch_results (products : list Product) (text : string) (l : Q) :
  (inject_Z 0 <= l)%Q ->
  let r := performSearch products text (Num l) in
  let q := trim (toLowerCase text) in
  query r = text
  /\ resultCount r = Z.of_nat (List.length (results r))
  /\ resultCount r
     = Z.min (Qfloor l) (Z.of_nat (List.length (searchProducts text products)))
  /\ (exists n, results r = firstn n (searchProducts text products))
  /\ StronglySorted (fun a b => scoreProduct q b <= scoreProduct q a) (results r)
  /\ (forall p, In p (results r) -> In p products /\ 0 < scoreProduct q p).
Proof.
  intros Hl r q. unfold r, performSearch. cbn [query resultCount results].
  split; [reflexivity|]. split; [reflexivity|]. split.
  - apply firstItems_length, Hl.
  - split; [eexists; apply firstItems_firstn|]. split.
    + rewrite firstItems_firstn. apply firstn_StronglySorted.
      unfold searchProducts. fold q.
      destruct (truthy q); cbn [negb]; [|constructor].
      apply map_fst_StronglySorted; [apply scored_pairs_snd|].
      apply Array_sort_StronglySorted; intros; lia.
    + intros p Hp. apply firstItems_In in Hp.
      destruct (string_dec q "") as [E | E].
      * unfold searchProducts in Hp. fold q in Hp.
        apply truthy_false_iff in E. rewrite E in Hp. destruct Hp.
      * apply (searchProducts_In _ _ _ E) in Hp. exact Hp.
Qed.

Lemma performSearch_results_witness :
  resultCount (performSearch [headphones; mouse; lamp] "wireless" (Num (inject_Z 1)))
  = 1.
Proof.
  assert (Hl : (inject_Z 0 <= inject_Z 1)%Q) by (unfold Qle; simpl; lia).
  destruct (performSearch_results [headphones; mouse; lamp] "wireless"
              (inject_Z 1) Hl) as [_ [_ [Hcount _]]].
  rewrite Hcount. vm_compute. reflexivity.
Defined.

(** X26: the new arrivals are catalog products flagged new, by falling
    creation time, and they are the first ones of all the new products in
    that order. *)
Theorem getNewArrivals_sorted_new (products : list Product) (limit : number) :
  (forall p, In p (getNewArrivals products limit) ->
             In p products /\ isNew p = true)
  /\ StronglySorted (fun a b => createdAt b <= createdAt a)
       (getNewArrivals products limit)
  /\ (forall p, In p products -> isNew p = true ->
                In p (getNewArrivals products Infinity)).
Proof.
  unfold getNewArrivals. split; [|split].
  - intros p Hp. apply firstItems_In, Array_sort_In, filter_In in Hp. exact Hp.
  - rewrite firstItems_firstn. apply firstn_StronglySorted.
    apply Array_sort_StronglySorted; intros; lia.
  - intros p Hp Hnew. rewrite firstItems_Infinity.
    apply Array_sort_In, filter_In. auto.
Qed.

Lemma toIntegerOrInfinity_Z (n : Z) :
  toIntegerOrInfinity (Num (inject_Z n)) = Int n.
Proof.
  unfold toIntegerOrInfinity.
  destruct (Qle_bool (inject_Z 0) (inject_Z n));
    [rewrite Qfloor_Z | rewrite Qceiling_Z]; reflexivity.
Qed.

(** X27: with an integer limit [n] that is not negative the featured list
    holds the first [n] featured products of the catalog, in catalog order;
    with a negative limit [n] it holds all of them but the last [- n]. *)
Theorem getFeaturedProducts_limit (products : list Product) (n : Z) :
  let all := filter (fun p => featured p) products in
  getFeaturedProducts products (Num (inject_Z n))
  = firstn (Z.to_nat (if n <? 0 then Z.of_nat (List.length all) + n else n)) all
  /\ (forall p, In p (getFeaturedProducts products (Num (inject_Z n))) ->
                In p products /\ featured p = true).
Proof.
  intro all. unfold getFeaturedProducts. fold all. split.
  - rewrite firstItems_firstn, toIntegerOrInfinity_Z. cbn [relativeIndex].
    destruct (Z.ltb_spec n 0) as [Hneg | Hpos].
    + f_equal. lia.
    + destruct (Z.le_gt_cases n (Z.of_nat (List.length all))) as [Hfit | Hover].
      * f_equal. lia.
      * replace (Z.min n (Z.of_nat (List.length all)))
          with (Z.of_nat (List.length all)) by lia.
        rewrite Nat2Z.id, firstn_all. symmetry. apply firstn_all2. lia.
  - intros p Hp. apply firstItems_In in Hp. unfold all in Hp.
    apply filter_In in Hp. exact Hp.
Qed.
